(** * omi-audio-streaming: the WAV encoder and the storage router of [main.go]

    The server accepts raw PCM bytes over HTTP, prefixes them with a 44-byte
    WAV header, writes the result to a temporary file and then stores it
    either through the AGFS client or in a local directory.

    The development follows the later of the two revisions of [main.go]
    (the one with the AGFS client); the earlier revision is the same
    program without the remote branch.

    - [Wav]    : integers, byte slices, [binary.LittleEndian] and
                 [createWAVHeader];
    - [Riff]   : a reference RIFF/WAVE reader, used to state the round trip;
    - [Sys]    : the process and its surroundings (files, environment, the
                 remote store, the log), and the library calls of the program
                 as steps of a state monad;
    - [Server] : [saveFileLocally], [uploadToAGFS], [handlePostAudio], [main],
                 and the vocabulary in which the runs are described;
    - [Examples] : a few requests and surroundings to run the program on.

    The facts follow: the layout of the header, the round trip through the
    reader, the rules by which runs are explored, and then what the handler
    does with the remote store, the local directory and its configuration.
*)

From Stdlib Require Import ZArith Lia String Ascii List.
From stdpp Require Import base option list gmap strings.

Local Open Scope Z_scope.

(* ===================================================================== *)
(** ** The WAV encoder *)
(* ===================================================================== *)

Module Wav.

(** *** Go integers

    A byte is a [Z] in [0, 256); [int] is the 64-bit signed integer of the
    usual targets; conversions to a narrower unsigned type keep the low
    bits. *)

Definition int_wrap (v : Z) : Z := (v + 2 ^ 63) mod 2 ^ 64 - 2 ^ 63.
Definition int_add (a b : Z) : Z := int_wrap (a + b).
Definition uint32 (v : Z) : Z := v mod 2 ^ 32.
Definition uint16 (v : Z) : Z := v mod 2 ^ 16.
(** [byte(v)] *)
Definition byte (v : Z) : Z := Z.land v 255.

Definition is_byte (b : Z) : Prop := 0 <= b < 256.

(** [[]byte("...")] *)
Definition bytes (s : string) : list Z :=
  map (fun c => Z.of_N (N_of_ascii c)) (list_ascii_of_string s).

(** *** Slices

    [header[lo:hi]] shares its storage with [header]: an update of the
    sub-slice is an update of [header] between [lo] and [hi]. *)

Definition make (n : nat) : list Z := replicate n 0.

Definition slice (lo hi : nat) (l : list Z) : list Z :=
  take (hi - lo) (drop lo l).

Definition on_slice (lo hi : nat) (f : list Z -> list Z) (l : list Z) : list Z :=
  take lo l ++ f (slice lo hi l) ++ drop hi l.

(** [copy(dst, src)] overwrites the first [min (len dst) (len src)] elements
    of [dst]. *)
Definition copy (dst src : list Z) : list Z :=
  take (length dst) src ++ drop (length src) dst.

(** *** encoding/binary, little endian

    [PutUint16] and [PutUint32] start with a bounds check ([_ = b[1]],
    [_ = b[3]]) that panics on a shorter slice; stdpp's insert leaves such a
    slice alone instead.  [createWAVHeader] only passes slices of the exact
    size (see [slice_length]). *)

Definition PutUint16 (b : list Z) (v : Z) : list Z :=
  <[1%nat := byte (Z.shiftr v 8)]> (<[0%nat := byte v]> b).

Definition PutUint32 (b : list Z) (v : Z) : list Z :=
  <[3%nat := byte (Z.shiftr v 24)]>
    (<[2%nat := byte (Z.shiftr v 16)]>
       (<[1%nat := byte (Z.shiftr v 8)]> (<[0%nat := byte v]> b))).

(** *** The constants and the header *)

Definition numChannels : Z := 1.
Definition sampleRate : Z := 16000.
Definition bitsPerSample : Z := 16.

Definition createWAVHeader (dataLength : Z) : list Z :=
  let byteRate := sampleRate * numChannels * bitsPerSample / 8 in
  let blockAlign := numChannels * bitsPerSample / 8 in
  let header := make 44 in

  let header := on_slice 0 4 (fun b => copy b (bytes "RIFF")) header in
  let header := on_slice 4 8 (fun b => PutUint32 b (uint32 (int_add 36 dataLength))) header in
  let header := on_slice 8 12 (fun b => copy b (bytes "WAVE")) header in

  let header := on_slice 12 16 (fun b => copy b (bytes "fmt ")) header in
  let header := on_slice 16 20 (fun b => PutUint32 b 16) header in
  let header := on_slice 20 22 (fun b => PutUint16 b 1) header in
  let header := on_slice 22 24 (fun b => PutUint16 b (uint16 numChannels)) header in
  let header := on_slice 24 28 (fun b => PutUint32 b (uint32 sampleRate)) header in
  let header := on_slice 28 32 (fun b => PutUint32 b (uint32 byteRate)) header in
  let header := on_slice 32 34 (fun b => PutUint16 b (uint16 blockAlign)) header in
  let header := on_slice 34 36 (fun b => PutUint16 b bitsPerSample) header in

  let header := on_slice 36 40 (fun b => copy b (bytes "data")) header in
  let header := on_slice 40 44 (fun b => PutUint32 b (uint32 dataLength)) header in

  header.

(** *** The layout, as the format describes it

    [le n v] is the little-endian representation of [v] on [n] bytes: the
    low byte first.  It keeps the low [8 * n] bits of [v]. *)

Fixpoint le (n : nat) (v : Z) : list Z :=
  match n with
  | O => []
  | S n' => v mod 256 :: le n' (v / 256)
  end.

(** The value of a little-endian byte sequence. *)
Fixpoint le_value (b : list Z) : Z :=
  match b with
  | [] => 0
  | x :: b' => x + 256 * le_value b'
  end.

Definition layout (riffSize dataSize : Z) : list Z :=
  bytes "RIFF" ++ le 4 riffSize ++ bytes "WAVE" ++
  bytes "fmt " ++ le 4 16 ++ le 2 1 ++ le 2 1 ++ le 4 16000 ++ le 4 32000 ++
  le 2 2 ++ le 2 16 ++
  bytes "data" ++ le 4 dataSize.

End Wav.

Import Wav.

(* ===================================================================== *)
(** ** A reference RIFF/WAVE reader *)
(* ===================================================================== *)

Module Riff.

(** The reader is not part of the server: it is the consumer the files are
    written for, and the round trip is stated against it.  It reads as the
    reader of Python's standard library does ([wave.open] followed by
    [readframes] of all frames):

    - the file starts with [RIFF], a size and [WAVE]; nothing beyond the
      size of the outer chunk is looked at;
    - the sub-chunks are walked in order: [fmt ] gives the format, which
      has to be plain PCM with at least one channel and one byte per
      sample; the first [data] chunk after it gives the audio; any other
      chunk is skipped, with the pad byte that follows an odd-sized chunk;
    - the audio is a whole number of frames: the size of the [data] chunk
      divided by the size of a frame, rounded down; a last, partial frame
      is not delivered, and neither is what the file does not have. *)

Record Format := {
  wFormatTag : Z;
  nChannels : Z;
  nSamplesPerSec : Z;
  nAvgBytesPerSec : Z;
  nBlockAlign : Z;
  wBitsPerSample : Z;
}.

Record WavFile := {
  format : Format;
  audio : list Z;
}.

Definition parse_fmt (b : list Z) : Format :=
  {| wFormatTag := le_value (slice 0 2 b);
     nChannels := le_value (slice 2 4 b);
     nSamplesPerSec := le_value (slice 4 8 b);
     nAvgBytesPerSec := le_value (slice 8 12 b);
     nBlockAlign := le_value (slice 12 14 b);
     wBitsPerSample := le_value (slice 14 16 b) |}.

Definition WAVE_FORMAT_PCM : Z := 1.

(** The bytes of one sample, and of one frame: a sample of every channel. *)
Definition sample_width (f : Format) : Z := (wBitsPerSample f + 7) / 8.

Definition frame_size (f : Format) : Z := nChannels f * sample_width f.

Definition readable (f : Format) : bool :=
  (wFormatTag f =? WAVE_FORMAT_PCM) && negb (sample_width f =? 0)
  && negb (nChannels f =? 0).

Fixpoint read_chunks (fuel : nat) (bs : list Z) (fmt : option Format) : option WavFile :=
  match fuel with
  | O => None
  | S fuel' =>
    if (length bs <? 8)%nat then None
    else
      let id := take 4 bs in
      let size := Z.to_nat (le_value (slice 4 8 bs)) in
      let rest := drop 8 bs in
      (* what the file has of the chunk *)
      let body := take size rest in
      (* chunks are word aligned: a pad byte follows an odd-sized body *)
      let next := drop (size + size mod 2) rest in
      if decide (id = bytes "fmt ") then
        if (length body <? 16)%nat then None
        else
          let f := parse_fmt body in
          if readable f then read_chunks fuel' next (Some f) else None
      else if decide (id = bytes "data") then
        match fmt with
        | Some f =>
          let nframes := Z.of_nat size / frame_size f in
          Some {| format := f;
                  audio := take (Z.to_nat (nframes * frame_size f)) body |}
        | None => None
        end
      else read_chunks fuel' next fmt
  end.

Definition parseWAV (bs : list Z) : option WavFile :=
  if decide (take 4 bs = bytes "RIFF") then
    let riffSize := Z.to_nat (le_value (slice 4 8 bs)) in
    let content := take riffSize (drop 8 bs) in
    if decide (take 4 content = bytes "WAVE") then
      read_chunks (length content) (drop 4 content) None
    else None
  else None.

(** Number of sample frames of a decoded file. *)
Definition frames (f : WavFile) : Z :=
  Z.of_nat (length (audio f)) / frame_size (format f).

(** The format every file of this server declares. *)
Definition pcm_mono_16k : Format :=
  {| wFormatTag := 1; nChannels := 1; nSamplesPerSec := 16000;
     nAvgBytesPerSec := 32000; nBlockAlign := 2; wBitsPerSample := 16 |}.

End Riff.

Import Riff.

(* ===================================================================== *)
(** ** The process and its surroundings *)
(* ===================================================================== *)

Module Sys.

Local Open Scope string_scope.

(** Go errors are used here only for their text ([%v] in [fmt.Errorf] and
    [log.Printf]). *)
Definition error := string.

Inductive result (A : Type) : Type :=
| Ok (a : A)
| Err (e : error).
Arguments Ok {A} a.
Arguments Err {A} e.

(** [*os.File]: the handle names its file by the path it was opened with
    (the program never renames or removes a file, makes no link and does not
    change its working directory, so a path names the same file throughout
    a run). *)
Record File := { Name : string }.

(** [*agfs.Client], as [agfs.NewClient(url)] makes it. *)
Record Client := { apiURL : string }.

Definition NewClient (url : string) : Client := {| apiURL := url |}.

(** What [time.Now()] is asked for. *)
Record Time := {
  Day : nat; Month : nat; Year : nat;
  Hour : nat; Minute : nat; Second : nat;
}.

(** The library calls that reach outside the program. *)
Inductive Call :=
| IoReadAll                                   (* io.ReadAll(r.Body) *)
| BodyClose                                   (* r.Body.Close() *)
| TimeNow                                     (* time.Now() *)
| OsTempDir                                   (* os.TempDir() *)
| OsGetenv (key : string)                     (* os.Getenv *)
| OsCreate (path : string)                    (* os.Create *)
| FileWrite (path : string) (data : list Z)   (* File.Write *)
| FileClose (path : string)                   (* File.Close *)
| OsReadFile (path : string)                  (* os.ReadFile *)
| OsMkdirAll (dir : string)                   (* os.MkdirAll(dir, 0755) *)
| OsOpen (path : string)                      (* os.Open *)
| IoCopy (dst src : string)                   (* io.Copy(dst, src) *)
| AgfsWrite (path : string) (data : list Z).  (* agfs Client.Write *)

(** A call and how it ended: [None] for a nil error. *)
Record Event := { call : Call; outcome : option error }.

(** A failure of the surroundings (full disk, permissions, network): the
    error, and for a call that moves data the number of bytes that went
    through before it. *)
Record Fault := { transferred : nat; reason : error }.

Record World := {
  (* the file system: the content of every file, the file a path names (two
     paths with the same value here are two names of one file: a relative
     and an absolute path, a path through a link), and the names of the
     directories *)
  files : gmap string (list Z);
  realpath : string -> string;
  dirs : gset string;
  (* the process environment and the clock *)
  env : gmap string string;
  clock : Time;
  (* what the AGFS server stores, and what a write that fails makes of it *)
  remote : gmap string (list Z);
  aborted : string -> list Z -> gmap string (list Z) -> gmap string (list Z);
  (* the faults to come: [plan n] hits the [n]-th call of the process *)
  plan : nat -> option Fault;
  (* the calls made so far, oldest first, and the lines logged *)
  trace : list Event;
  logs : list string;
  (* the package-level variables of main.go *)
  agfsClient : option Client;
  agfsUploadPath : string;
}.

Definition set_files (f : gmap string (list Z)) (w : World) : World :=
  {| files := f; realpath := realpath w; dirs := dirs w; env := env w;
     clock := clock w; remote := remote w; aborted := aborted w;
     plan := plan w; trace := trace w; logs := logs w;
     agfsClient := agfsClient w; agfsUploadPath := agfsUploadPath w |}.

Definition set_dirs (d : gset string) (w : World) : World :=
  {| files := files w; realpath := realpath w; dirs := d; env := env w;
     clock := clock w; remote := remote w; aborted := aborted w;
     plan := plan w; trace := trace w; logs := logs w;
     agfsClient := agfsClient w; agfsUploadPath := agfsUploadPath w |}.

Definition set_remote (r : gmap string (list Z)) (w : World) : World :=
  {| files := files w; realpath := realpath w; dirs := dirs w; env := env w;
     clock := clock w; remote := r; aborted := aborted w;
     plan := plan w; trace := trace w; logs := logs w;
     agfsClient := agfsClient w; agfsUploadPath := agfsUploadPath w |}.

Definition set_trace (t : list Event) (w : World) : World :=
  {| files := files w; realpath := realpath w; dirs := dirs w; env := env w;
     clock := clock w; remote := remote w; aborted := aborted w;
     plan := plan w; trace := t; logs := logs w;
     agfsClient := agfsClient w; agfsUploadPath := agfsUploadPath w |}.

Definition set_logs (l : list string) (w : World) : World :=
  {| files := files w; realpath := realpath w; dirs := dirs w; env := env w;
     clock := clock w; remote := remote w; aborted := aborted w;
     plan := plan w; trace := trace w; logs := l;
     agfsClient := agfsClient w; agfsUploadPath := agfsUploadPath w |}.

Definition set_agfsClient (c : option Client) (w : World) : World :=
  {| files := files w; realpath := realpath w; dirs := dirs w; env := env w;
     clock := clock w; remote := remote w; aborted := aborted w;
     plan := plan w; trace := trace w; logs := logs w;
     agfsClient := c; agfsUploadPath := agfsUploadPath w |}.

Definition set_agfsUploadPath (p : string) (w : World) : World :=
  {| files := files w; realpath := realpath w; dirs := dirs w; env := env w;
     clock := clock w; remote := remote w; aborted := aborted w;
     plan := plan w; trace := trace w; logs := logs w;
     agfsClient := agfsClient w; agfsUploadPath := p |}.

(** The program itself never changes its environment (it has no call to
    [os.Setenv]); this is for an environment changed from elsewhere. *)
Definition set_env (e : gmap string string) (w : World) : World :=
  {| files := files w; realpath := realpath w; dirs := dirs w; env := e;
     clock := clock w; remote := remote w; aborted := aborted w;
     plan := plan w; trace := trace w; logs := logs w;
     agfsClient := agfsClient w; agfsUploadPath := agfsUploadPath w |}.

(** *** The monad of the program: a step of the world with a result *)

Definition M (A : Type) : Type := World -> A * World.

Definition ret {A} (a : A) : M A := fun w => (a, w).

Definition bind {A B} (m : M A) (f : A -> M B) : M B :=
  fun w => let (a, w') := m w in f a w'.

Notation "x <- m ;; k" := (bind m (fun x => k))
  (at level 100, m at next level, right associativity).
Notation "m ;;; k" := (bind m (fun _ => k))
  (at level 100, right associativity).

(** [defer d] before [body]: [d] runs when the function returns, whichever
    way [body] ends. *)
Definition defer {A} (d : M unit) (body : M A) : M A :=
  fun w => let (a, w') := body w in (a, (d w').2).

(** Reading a package-level variable (or any other part of the state). *)
Definition read {A} (f : World -> A) : M A := fun w => (f w, w).

(** Assigning one. *)
Definition assign (f : World -> World) : M unit := fun w => (tt, f w).

(** The fault, if any, that hits the call about to be made. *)
Definition pending (w : World) : option Fault := plan w (length (trace w)).

Definition record (c : Call) (o : option error) (w : World) : World :=
  set_trace (trace w ++ [{| call := c; outcome := o |}])%list w.

(** What is found at a path: the content of the file it names. *)
Definition file_at (w : World) (path : string) : option (list Z) :=
  files w !! realpath w path.

Definition content (path : string) (w : World) : list Z :=
  default [] (file_at w path).

Definition append_file (path : string) (data : list Z) (w : World) : World :=
  set_files (<[realpath w path := (content path w ++ data)%list]> (files w)) w.

Definition ENOENT (path : string) : error :=
  "open " +:+ path +:+ ": no such file or directory".

(** *** The calls *)

Definition log_Printf (line : string) : M unit :=
  fun w => (tt, set_logs (logs w ++ [line])%list w).

Definition io_ReadAll (body : list Z) : M (result (list Z)) :=
  fun w =>
    match pending w with
    | Some f => (Err (reason f), record IoReadAll (Some (reason f)) w)
    | None => (Ok body, record IoReadAll None w)
    end.

Definition Body_Close : M unit :=
  fun w => (tt, record BodyClose None w).

Definition time_Now : M Time :=
  fun w => (clock w, record TimeNow None w).

(** The value of a variable is the empty string when it is not set. *)
Definition getenv (e : gmap string string) (key : string) : string :=
  default "" (e !! key).

Definition os_Getenv (key : string) : M string :=
  fun w => (getenv (env w) key, record (OsGetenv key) None w).

(** Unix: [$TMPDIR], or [/tmp] when that is empty. *)
Definition temp_dir (e : gmap string string) : string :=
  let dir := getenv e "TMPDIR" in
  if decide (dir = "") then "/tmp" else dir.

Definition os_TempDir : M string :=
  fun w => (temp_dir (env w), record OsTempDir None w).

(** [os.Create] truncates the file if it exists. *)
Definition os_Create (path : string) : M (result File) :=
  fun w =>
    match pending w with
    | Some f => (Err (reason f), record (OsCreate path) (Some (reason f)) w)
    | None =>
      (Ok {| Name := path |},
       record (OsCreate path) None
         (set_files (<[realpath w path := []]> (files w)) w))
    end.

(** What a call that moves [data] gets through: all of it, or what went
    before the fault. *)
Definition moved (flt : option Fault) (data : list Z) : list Z :=
  match flt with
  | Some f => take (transferred f) data
  | None => data
  end.

(** A handle fresh from [os.Create] writes at the end of what it wrote
    before.  A failed write may still have put a prefix of the data. *)
Definition File_Write (f : File) (data : list Z) : M (nat * option error) :=
  fun w =>
    let part := moved (pending w) data in
    let err := reason <$> pending w in
    (length part, err,
     record (FileWrite (Name f) data) err (append_file (Name f) part w)).

Definition File_Close (f : File) : M unit :=
  fun w => (tt, record (FileClose (Name f)) None w).

Definition os_ReadFile (path : string) : M (result (list Z)) :=
  fun w =>
    match pending w with
    | Some f => (Err (reason f), record (OsReadFile path) (Some (reason f)) w)
    | None =>
      match file_at w path with
      | Some data => (Ok data, record (OsReadFile path) None w)
      | None => (Err (ENOENT path), record (OsReadFile path) (Some (ENOENT path)) w)
      end
    end.

(** Only the named directory is tracked, not the parents [MkdirAll] makes on
    the way. *)
Definition os_MkdirAll (dir : string) : M (option error) :=
  fun w =>
    match pending w with
    | Some f => (Some (reason f), record (OsMkdirAll dir) (Some (reason f)) w)
    | None => (None, record (OsMkdirAll dir) None (set_dirs ({[dir]} ∪ dirs w) w))
    end.

Definition os_Open (path : string) : M (result File) :=
  fun w =>
    match pending w with
    | Some f => (Err (reason f), record (OsOpen path) (Some (reason f)) w)
    | None =>
      match file_at w path with
      | Some _ => (Ok {| Name := path |}, record (OsOpen path) None w)
      | None => (Err (ENOENT path), record (OsOpen path) (Some (ENOENT path)) w)
      end
    end.

(** [io.Copy(dst, src)] reads [src] from its start to its end and writes what
    it reads to [dst]. *)
Definition io_Copy (dst src : File) : M (nat * option error) :=
  fun w =>
    let part := moved (pending w) (content (Name src) w) in
    let err := reason <$> pending w in
    (length part, err,
     record (IoCopy (Name dst) (Name src)) err (append_file (Name dst) part w)).

(** The one capability of the remote store: write bytes at a path.  The
    client library is not part of the program; of its [Write] this much is
    fixed: when it returns nil the bytes are at the path.  What a write that
    returns an error has done to the store is left open ([aborted]). *)
Definition Client_Write (c : Client) (path : string) (data : list Z) : M (option error) :=
  fun w =>
    match pending w with
    | Some f =>
      (Some (reason f),
       record (AgfsWrite path data) (Some (reason f))
         (set_remote (aborted w path data (remote w)) w))
    | None =>
      (None, record (AgfsWrite path data) None
               (set_remote (<[path := data]> (remote w)) w))
    end.

(** *** path/filepath (Unix), after its documentation

    [Clean]: runs of slashes count as one, [.] elements go away, an inner
    [..] goes away together with the element before it, [..] at the start
    of a rooted path goes away; the empty result is [.]. *)

Fixpoint split_slash (s : string) : list string :=
  match s with
  | EmptyString => [EmptyString]
  | String c s' =>
    if Ascii.eqb c "/" then EmptyString :: split_slash s'
    else match split_slash s' with
         | x :: xs => String c x :: xs
         | [] => [String c EmptyString]
         end
  end.

(** The elements kept so far are held newest first. *)
Definition clean_step (rooted : bool) (kept : list string) (e : string) : list string :=
  if decide (e = "") then kept
  else if decide (e = ".") then kept
  else if decide (e = "..") then
    match kept with
    | top :: below => if decide (top = "..") then e :: kept else below
    | [] => if rooted then [] else [e]
    end
  else e :: kept.

Definition filepath_Clean (path : string) : string :=
  if decide (path = "") then "."
  else
    let rooted := match path with String c _ => Ascii.eqb c "/" | _ => false end in
    let out := String.concat "/" (rev (fold_left (clean_step rooted) (split_slash path) [])) in
    if rooted then "/" +:+ out
    else if decide (out = "") then "." else out.

(** [filepath.Join] of two elements: cleaned from the first non-empty one
    on; empty when both are. *)
Definition filepath_Join (a b : string) : string :=
  if decide (a ≠ "") then filepath_Clean (a +:+ "/" +:+ b)
  else if decide (b ≠ "") then filepath_Clean b
  else "".

(** *** fmt: [%0Nd] of a non-negative integer *)

Fixpoint digits (fuel n : nat) (acc : string) : string :=
  match fuel with
  | O => acc
  | S fuel' =>
    let acc' := String (ascii_of_nat (48 + n mod 10)) acc in
    if (n / 10 =? 0)%nat then acc' else digits fuel' (n / 10)%nat acc'
  end.

Definition decimal (n : nat) : string := digits (S n) n "".

Fixpoint zeros (n : nat) : string :=
  match n with
  | O => ""
  | S n' => String "0" (zeros n')
  end.

Definition fmt_0d (width n : nat) : string :=
  let s := decimal n in zeros (width - String.length s) +:+ s.

(** *** net/http *)

Record Request := {
  query : list (string * string);   (* r.URL.Query() *)
  body : list Z;                    (* what r.Body delivers *)
}.

(** [url.Values.Get]: the first value of the key, or the empty string. *)
Fixpoint query_Get (q : list (string * string)) (key : string) : string :=
  match q with
  | [] => ""
  | (k, v) :: q' => if decide (k = key) then v else query_Get q' key
  end.

Record Response := { status : Z; text : string }.

Definition StatusOK : Z := 200.
Definition StatusBadRequest : Z := 400.
Definition StatusInternalServerError : Z := 500.

Definition newline : string := String (ascii_of_nat 10) "".

(** [http.Error(w, msg, code)] *)
Definition http_Error (msg : string) (code : Z) : Response :=
  {| status := code; text := msg +:+ newline |}.

End Sys.

Import Sys.

(* ===================================================================== *)
(** ** main.go *)
(* ===================================================================== *)

Module Server.

Local Open Scope string_scope.

Definition saveFileLocally (storageDir fileName tempFilePath : string) : M (option error) :=
  (* Create storage directory if it doesn't exist *)
  err <- os_MkdirAll storageDir ;;
  match err with
  | Some err => ret (Some ("failed to create storage directory: " +:+ err))
  | None =>
    (* Define destination path *)
    let destPath := filepath_Join storageDir fileName in
    (* Copy file from temp location to storage directory *)
    r <- os_Open tempFilePath ;;
    match r with
    | Err err => ret (Some ("failed to open source file: " +:+ err))
    | Ok srcFile =>
      defer (File_Close srcFile) (
        r <- os_Create destPath ;;
        match r with
        | Err err => ret (Some ("failed to create destination file: " +:+ err))
        | Ok destFile =>
          defer (File_Close destFile) (
            r <- io_Copy destFile srcFile ;;
            match r.2 with
            | Some err => ret (Some ("failed to copy file: " +:+ err))
            | None =>
              log_Printf ("File " +:+ fileName +:+ " saved to local storage directory "
                          +:+ storageDir +:+ " successfully.") ;;;
              ret None
            end)
        end)
    end
  end.

Definition uploadToAGFS (filePath fileName : string) : M (option error) :=
  client <- read agfsClient ;;
  match client with
  | None => ret (Some "AGFS client not initialized")
  | Some client =>
    (* Read file content *)
    r <- os_ReadFile filePath ;;
    match r with
    | Err err => ret (Some ("failed to read file: " +:+ err))
    | Ok fileData =>
      (* Construct full path with upload path prefix *)
      prefix <- read agfsUploadPath ;;
      let fullPath :=
        if decide (prefix ≠ "") then filepath_Join prefix fileName else fileName in
      (* Upload to AGFS *)
      err <- Client_Write client fullPath fileData ;;
      match err with
      | Some err => ret (Some ("failed to upload to AGFS: " +:+ err))
      | None =>
        log_Printf ("File uploaded to AGFS at path: " +:+ fullPath) ;;;
        ret None
      end
    end
  end.

(** [DD_MM_YYYY_HH_MM_SS.wav] *)
Definition filename_of (t : Time) : string :=
  fmt_0d 2 (Day t) +:+ "_" +:+ fmt_0d 2 (Month t) +:+ "_" +:+ fmt_0d 4 (Year t) +:+ "_" +:+
  fmt_0d 2 (Hour t) +:+ "_" +:+ fmt_0d 2 (Minute t) +:+ "_" +:+ fmt_0d 2 (Second t) +:+ ".wav".

Definition handlePostAudio (r : Request) : M Response :=
  let sampleRateParam := query_Get (query r) "sample_rate" in
  let uid := query_Get (query r) "uid" in

  log_Printf ("Received request from uid: " +:+ uid) ;;;
  log_Printf ("Requested sample rate: " +:+ sampleRateParam) ;;;

  rd <- io_ReadAll (body r) ;;
  match rd with
  | Err _ => ret (http_Error "Failed to read request body" StatusBadRequest)
  | Ok body =>
    defer Body_Close (
      currentTime <- time_Now ;;
      let filename := filename_of currentTime in

      tmp <- os_TempDir ;;
      let tempFilePath := filepath_Join tmp filename in

      let header := createWAVHeader (Z.of_nat (length body)) in

      (* Write to temporary file *)
      rc <- os_Create tempFilePath ;;
      match rc with
      | Err err =>
        log_Printf ("Failed to create temp file: " +:+ err) ;;;
        ret (http_Error "Failed to create temp file" StatusInternalServerError)
      | Ok tempFile =>
        defer (File_Close tempFile) (
          (* Write WAV header and audio data *)
          File_Write tempFile header ;;;
          File_Write tempFile body ;;;

          (* Upload to AGFS if client is configured *)
          client <- read agfsClient ;;
          match client with
          | Some _ =>
            err <- uploadToAGFS tempFilePath filename ;;
            match err with
            | Some err =>
              log_Printf ("Failed to upload to AGFS: " +:+ err) ;;;
              (* Fall back to local storage if AGFS upload fails *)
              storageDir <- os_Getenv "AUDIO_STORAGE_DIR" ;;
              let storageDir :=
                if decide (storageDir = "") then "./audio_files" else storageDir in
              err <- saveFileLocally storageDir filename tempFilePath ;;
              match err with
              | Some err =>
                log_Printf ("Failed to save file locally: " +:+ err) ;;;
                ret (http_Error "Failed to save file" StatusInternalServerError)
              | None =>
                ret {| status := StatusOK;
                       text := "Audio bytes received and saved as " +:+ filename |}
              end
            | None =>
              log_Printf "File uploaded to AGFS successfully, skipping local storage" ;;;
              ret {| status := StatusOK;
                     text := "Audio bytes received and saved as " +:+ filename |}
            end
          | None =>
            (* No AGFS configured, save to local storage *)
            storageDir <- os_Getenv "AUDIO_STORAGE_DIR" ;;
            let storageDir :=
              if decide (storageDir = "") then "./audio_files" else storageDir in
            err <- saveFileLocally storageDir filename tempFilePath ;;
            match err with
            | Some err =>
              log_Printf ("Failed to save file locally: " +:+ err) ;;;
              ret (http_Error "Failed to save file to local storage"
                     StatusInternalServerError)
            | None =>
              ret {| status := StatusOK;
                     text := "Audio bytes received and saved as " +:+ filename |}
            end
          end)
      end)
  end.

(** The command line, after [flag.Parse()]. *)
Record Flags := {
  addr : string;
  agfsAPIURL : string;
  agfsPath : string;
}.

(** [main] up to [http.ListenAndServe]: the result is the address served. *)
Definition main (flags : Flags) : M string :=
  (* Get address from environment variable or command line flag *)
  serverAddr <- os_Getenv "SERVER_ADDR" ;;
  let serverAddr := if decide (addr flags ≠ "") then addr flags else serverAddr in
  let serverAddr := if decide (serverAddr = "") then ":8080" else serverAddr in

  (* Initialize AGFS client if API URL is provided *)
  (if decide (agfsAPIURL flags ≠ "") then
     assign (set_agfsClient (Some (NewClient (agfsAPIURL flags)))) ;;;
     assign (set_agfsUploadPath (agfsPath flags)) ;;;
     log_Printf ("AGFS client initialized with API URL: " +:+ agfsAPIURL flags) ;;;
     (if decide (agfsPath flags ≠ "")
      then log_Printf ("AGFS upload path: " +:+ agfsPath flags)
      else ret tt)
   else
     log_Printf "AGFS API URL not provided, files will only be saved locally") ;;;

  log_Printf ("Server starting on " +:+ serverAddr +:+ "...") ;;;
  ret serverAddr.

(** The requests of one process, one after the other. *)
Fixpoint serve (requests : list Request) : M (list Response) :=
  match requests with
  | [] => ret []
  | r :: rest =>
    resp <- handlePostAudio r ;;
    resps <- serve rest ;;
    ret (resp :: resps)
  end.

(** *** Reading a run *)

(** The calls a computation makes from [w], with their outcomes, and the
    lines it logs. *)
Definition events {A} (m : M A) (w : World) : list Event :=
  drop (length (trace w)) (trace (m w).2).

Definition logged {A} (m : M A) (w : World) : list string :=
  drop (length (logs w)) (logs (m w).2).

Definition calls (evs : list Event) : list Call := map call evs.

Definition failed (e : Event) : bool :=
  match outcome e with Some _ => true | None => false end.

Definition is_remote_write (c : Call) : bool :=
  match c with AgfsWrite _ _ => true | _ => false end.

Definition is_file_write (c : Call) : bool :=
  match c with FileWrite _ _ => true | _ => false end.

Definition is_copy (c : Call) : bool :=
  match c with IoCopy _ _ => true | _ => false end.

(** The calls that only the local save makes. *)
Definition is_local_step (c : Call) : bool :=
  match c with OsMkdirAll _ | OsOpen _ | IoCopy _ _ => true | _ => false end.

(** The calls with which the storage part of the handler starts. *)
Definition is_storage_entry (c : Call) : bool :=
  match c with OsReadFile _ | OsGetenv _ => true | _ => false end.

Definition remote_write_failed (evs : list Event) : bool :=
  existsb (fun e => is_remote_write (call e) && failed e) evs.

Definition remote_write_ok (evs : list Event) : bool :=
  existsb (fun e => is_remote_write (call e) && negb (failed e)) evs.

Definition write_failed (evs : list Event) : bool :=
  existsb (fun e => is_file_write (call e) && failed e) evs.

Definition copy_ok (evs : list Event) : bool :=
  existsb (fun e => is_copy (call e) && negb (failed e)) evs.

Definition remote_writes (evs : list Event) : list Event :=
  List.filter (fun e => is_remote_write (call e)) evs.

Definition mkdirs (evs : list Event) : list string :=
  omap (fun e => match call e with OsMkdirAll d => Some d | _ => None end) evs.

Definition creates (evs : list Event) : list string :=
  omap (fun e => match call e with OsCreate p => Some p | _ => None end) evs.

Definition copies (evs : list Event) : list (string * string) :=
  omap (fun e => match call e with IoCopy d s => Some (d, s) | _ => None end) evs.

(** The four steps of the local save, and the error each one is wrapped
    into. *)
Inductive LocalStep := MkdirStep | OpenStep | CreateStep | CopyStep.

Definition wrapped (s : LocalStep) (e : error) : error :=
  match s with
  | MkdirStep => "failed to create storage directory: " +:+ e
  | OpenStep => "failed to open source file: " +:+ e
  | CreateStep => "failed to create destination file: " +:+ e
  | CopyStep => "failed to copy file: " +:+ e
  end.

Definition step_of (c : Call) : option LocalStep :=
  match c with
  | OsMkdirAll _ => Some MkdirStep
  | OsOpen _ => Some OpenStep
  | OsCreate _ => Some CreateStep
  | IoCopy _ _ => Some CopyStep
  | _ => None
  end.

(** The first of these steps that failed, with the error it met. *)
Definition first_failure (evs : list Event) : option (LocalStep * error) :=
  head (omap (fun e =>
                match step_of (call e), outcome e with
                | Some s, Some err => Some (s, err)
                | _, _ => None
                end) evs).

(** The calls of the local save when the step [failing] is the one that
    fails ([None]: none does): the steps up to that one, and the closing of
    what was opened before it. *)
Definition local_save_calls (storageDir fileName tempFilePath : string)
    (failing : option LocalStep) : list Call :=
  let destPath := filepath_Join storageDir fileName in
  match failing with
  | Some MkdirStep => [OsMkdirAll storageDir]
  | Some OpenStep => [OsMkdirAll storageDir; OsOpen tempFilePath]
  | Some CreateStep =>
    [OsMkdirAll storageDir; OsOpen tempFilePath; OsCreate destPath;
     FileClose tempFilePath]
  | Some CopyStep | None =>
    [OsMkdirAll storageDir; OsOpen tempFilePath; OsCreate destPath;
     IoCopy destPath tempFilePath; FileClose destPath; FileClose tempFilePath]
  end.

(** The storage directory in environment [e]. *)
Definition configured_dir (e : gmap string string) : string :=
  let d := getenv e "AUDIO_STORAGE_DIR" in
  if decide (d = "") then "./audio_files" else d.

(** The names a request handled in [w] goes by. *)
Definition filename_in (w : World) : string := filename_of (clock w).

Definition tempFilePath_in (w : World) : string :=
  filepath_Join (temp_dir (env w)) (filename_in w).

Definition destPath_in (w : World) : string :=
  filepath_Join (configured_dir (env w)) (filename_in w).

(** Two paths that name one file. *)
Definition same_file (w : World) (p q : string) : Prop :=
  realpath w p = realpath w q.

(** The remote path of a file named [fileName]. *)
Definition remote_path (w : World) (fileName : string) : string :=
  if decide (agfsUploadPath w = "") then fileName
  else filepath_Join (agfsUploadPath w) fileName.

(** The data of the writes to files, in order. *)
Definition file_writes (evs : list Event) : list Call :=
  List.filter is_file_write (calls evs).

(** Every remote write of a list of calls goes to [path]. *)
Definition writes_to (path : string) (evs : list Event) : Prop :=
  Forall (fun e => forall p d, call e = AgfsWrite p d -> p = path) evs.

(** The error of [uploadToAGFS] without a client. *)
Definition not_initialized : error := "AGFS client not initialized".

(** A run that makes no directory, or makes [dir] after looking
    [AUDIO_STORAGE_DIR] up itself. *)
Definition resolves_dir_itself (dir : string) (evs : list Event) : Prop :=
  mkdirs evs = [] \/
  (mkdirs evs = [dir] /\ In (OsGetenv "AUDIO_STORAGE_DIR") (calls evs)).

(** Two states that differ at most in what has been logged. *)
Definition same_but_logs (w1 w2 : World) : Prop :=
  files w1 = files w2 /\ dirs w1 = dirs w2 /\ env w1 = env w2 /\
  clock w1 = clock w2 /\ remote w1 = remote w2 /\ plan w1 = plan w2 /\
  trace w1 = trace w2 /\ agfsClient w1 = agfsClient w2 /\
  agfsUploadPath w1 = agfsUploadPath w2 /\
  realpath w1 = realpath w2 /\ aborted w1 = aborted w2.

(** Two computations that, from such states, give the same result and end
    in such states. *)
Definition rel {A} (m1 m2 : M A) : Prop :=
  forall w1 w2, same_but_logs w1 w2 ->
    (m1 w1).1 = (m2 w2).1 /\ same_but_logs (m1 w1).2 (m2 w2).2.

(** *** Reasoning about a run: the postcondition [Q] holds of the result and
    the final state of [m] started in [w]. *)
Definition wp {A} (m : M A) (Q : A -> World -> Prop) (w : World) : Prop :=
  Q (m w).1 (m w).2.

End Server.

Import Server.

(* ===================================================================== *)
(** ** Some requests and some surroundings *)
(* ===================================================================== *)

Module Examples.

Local Open Scope string_scope.

Definition noon : Time :=
  {| Day := 30; Month := 10; Year := 2026; Hour := 12; Minute := 0; Second := 7 |}.

(** No remote store, nothing on disk, nothing going wrong. *)
Definition local_only : World :=
  {| files := ∅; realpath := fun path => path; dirs := ∅; env := ∅; clock := noon;
     remote := ∅; aborted := fun _ _ store => store;
     plan := fun _ => None; trace := []; logs := [];
     agfsClient := None; agfsUploadPath := "" |}.

(** The same with a remote store and an upload path. *)
Definition with_remote : World :=
  set_agfsUploadPath "/s3fs/aws/recordings/"
    (set_agfsClient (Some (NewClient "http://agfs:8080")) local_only).

Definition fault_at (n : nat) (f : Fault) (k : nat) : option Fault :=
  if (k =? n)%nat then Some f else None.

Definition set_plan (p : nat -> option Fault) (w : World) : World :=
  {| files := files w; realpath := realpath w; dirs := dirs w; env := env w;
     clock := clock w; remote := remote w; aborted := aborted w;
     plan := p; trace := trace w; logs := logs w;
     agfsClient := agfsClient w; agfsUploadPath := agfsUploadPath w |}.

(** The remote store is down: the eighth call of a request, the remote
    write, fails. *)
Definition remote_down : World :=
  set_plan (fault_at 7 {| transferred := 0; reason := "connection refused" |})
    with_remote.

(** The storage directory is the directory of temporary files. *)
Definition storage_is_tmp : World :=
  set_env {[ "AUDIO_STORAGE_DIR" := "/tmp" ]} with_remote.

(** The disk is full: the fifth and the sixth call, the two writes to the
    temporary file, fail and put nothing. *)
Definition disk_full : World :=
  set_plan (fun k => if (k =? 4)%nat || (k =? 5)%nat
                     then Some {| transferred := 0; reason := "no space left on device" |}
                     else None)
    local_only.

(** The storage directory cannot be made: the eighth call without a remote
    store fails. *)
Definition read_only : World :=
  set_plan (fault_at 7 {| transferred := 0; reason := "permission denied" |})
    local_only.

(** A recording in the directory of temporary files, and the [n]-th call
    from now failing with the error [e]. *)
Definition recorded : World :=
  set_files {[ "/tmp/a.wav" := [10; 20; 30]%Z ]} local_only.

Definition failing (n : nat) (e : error) (w : World) : World :=
  set_plan (fault_at n {| transferred := 0; reason := e |}) w.

(** A process started with [AUDIO_STORAGE_DIR=/srv/a], and the same process
    after the variable became [/srv/b]. *)
Definition started_in_a : World :=
  set_env {[ "AUDIO_STORAGE_DIR" := "/srv/a" ]} local_only.

Definition no_flags : Flags := {| addr := ""; agfsAPIURL := ""; agfsPath := "" |}.

Definition moved_to_b : World :=
  set_env {[ "AUDIO_STORAGE_DIR" := "/srv/b" ]} (main no_flags started_in_a).2.

Definition four_samples : Request :=
  {| query := [("sample_rate", "8000"); ("uid", "alice")];
     body := [1; 2; 3; 4]%Z |}.

Definition four_samples_48k : Request :=
  {| query := [("sample_rate", "48000"); ("uid", "alice")];
     body := [1; 2; 3; 4]%Z |}.

(** A payload of 4 GiB. *)
Definition four_GiB : list Z := replicate (Z.to_nat (2 ^ 32)) 0%Z.

End Examples.

Import Examples.

(* ===================================================================== *)
(** ** The earlier revision of main.go *)
(* ===================================================================== *)

Module Rev1.

Local Open Scope string_scope.

(** [createWAVHeader] and [saveFileLocally] are the same text in the two
    revisions; the handler and [main] have no remote store. *)

Definition handlePostAudio (r : Request) : M Response :=
  let sampleRateParam := query_Get (query r) "sample_rate" in
  let uid := query_Get (query r) "uid" in

  log_Printf ("Received request from uid: " +:+ uid) ;;;
  log_Printf ("Requested sample rate: " +:+ sampleRateParam) ;;;

  rd <- io_ReadAll (body r) ;;
  match rd with
  | Err _ => ret (http_Error "Failed to read request body" StatusBadRequest)
  | Ok body =>
    defer Body_Close (
      currentTime <- time_Now ;;
      let filename := filename_of currentTime in

      tmp <- os_TempDir ;;
      let tempFilePath := filepath_Join tmp filename in

      let header := createWAVHeader (Z.of_nat (length body)) in

      (* Write to temporary file *)
      rc <- os_Create tempFilePath ;;
      match rc with
      | Err err =>
        log_Printf ("Failed to create temp file: " +:+ err) ;;;
        ret (http_Error "Failed to create temp file" StatusInternalServerError)
      | Ok tempFile =>
        defer (File_Close tempFile) (
          (* Write WAV header and audio data *)
          File_Write tempFile header ;;;
          File_Write tempFile body ;;;

          (* Get storage directory from environment variable, default to
             "./audio_files" *)
          storageDir <- os_Getenv "AUDIO_STORAGE_DIR" ;;
          let storageDir :=
            if decide (storageDir = "") then "./audio_files" else storageDir in

          (* Save the file to local storage *)
          err <- saveFileLocally storageDir filename tempFilePath ;;
          match err with
          | Some err =>
            log_Printf ("Failed to save file locally: " +:+ err) ;;;
            ret (http_Error "Failed to save file to local storage"
                   StatusInternalServerError)
          | None =>
            ret {| status := StatusOK;
                   text := "Audio bytes received and saved as " +:+ filename |}
          end)
      end)
  end.

(** [main] up to [http.ListenAndServe]; its one flag is [-addr]. *)
Definition main (addr : string) : M string :=
  (* Get address from environment variable or command line flag *)
  serverAddr <- os_Getenv "SERVER_ADDR" ;;
  let serverAddr := if decide (addr ≠ "") then addr else serverAddr in
  let serverAddr := if decide (serverAddr = "") then ":8080" else serverAddr in

  log_Printf ("Server starting on " +:+ serverAddr +:+ "...") ;;;
  ret serverAddr.

End Rev1.

(* ===================================================================== *)
(** ** More vocabulary for runs *)
(* ===================================================================== *)

Module Outcomes.

Local Open Scope string_scope.

(** No call of the run failed. *)
Definition all_ok (evs : list Event) : bool :=
  forallb (fun e => negb (failed e)) evs.

Definition is_create (c : Call) : bool :=
  match c with OsCreate _ => true | _ => false end.

Definition is_read_file (c : Call) : bool :=
  match c with OsReadFile _ => true | _ => false end.

Definition is_read_all (c : Call) : bool :=
  match c with IoReadAll => true | _ => false end.

(** The first call of the kind [k] in the run failed. *)
Definition first_failed (k : Call -> bool) (evs : list Event) : bool :=
  match List.filter (fun e => k (call e)) evs with
  | e :: _ => failed e
  | [] => false
  end.

(** The answers the handler can give for a file name. *)
Definition answers (filename : string) : list Response :=
  [ {| status := 200; text := "Audio bytes received and saved as " +:+ filename |};
    {| status := 400; text := "Failed to read request body" +:+ newline |};
    {| status := 500; text := "Failed to create temp file" +:+ newline |};
    {| status := 500; text := "Failed to save file" +:+ newline |};
    {| status := 500; text := "Failed to save file to local storage" +:+ newline |} ].

(** What stays of the process from one request to the next. *)
Definition same_process (w w' : World) : Prop :=
  env w' = env w /\ clock w' = clock w /\ plan w' = plan w /\
  agfsClient w' = agfsClient w /\ agfsUploadPath w' = agfsUploadPath w.

(** Nothing on disk went away. *)
Definition disk_grows (w w' : World) : Prop :=
  dirs w ⊆ dirs w' /\
  forall p, is_Some (files w !! p) -> is_Some (files w' !! p).

(** The address [main] serves for a flag and an environment. *)
Definition server_addr (flag : string) (e : gmap string string) : string :=
  if decide (flag ≠ "") then flag
  else if decide (getenv e "SERVER_ADDR" = "") then ":8080"
  else getenv e "SERVER_ADDR".

(** The clock readings with which the pattern [%02d_%02d_%04d_...] fills
    its widths exactly. *)
Definition calendar (t : Time) : Prop :=
  (Day t < 100 /\ Month t < 100 /\ Year t < 100 * 100 /\
   Hour t < 100 /\ Minute t < 100 /\ Second t < 100)%nat.

(** The number a string of decimal digits stands for. *)
Definition digit_of (c : ascii) : nat := nat_of_ascii c - 48.

Fixpoint number_of (s : string) (acc : nat) : nat :=
  match s with
  | EmptyString => acc
  | String c s' => number_of s' (10 * acc + digit_of c)
  end.

(** More surroundings to run the program on. *)

(** The temporary file cannot be created: the fourth call fails. *)
Definition tmp_read_only : World :=
  set_plan (fault_at 3 {| transferred := 0; reason := "permission denied" |})
    with_remote.

(** The connection breaks while the body is read: the first call fails. *)
Definition broken_body : World :=
  set_plan (fault_at 0 {| transferred := 0; reason := "unexpected EOF" |})
    with_remote.

(** The temporary file cannot be read back: the seventh call fails. *)
Definition unreadable_tmp : World :=
  set_plan (fault_at 6 {| transferred := 0; reason := "input/output error" |})
    with_remote.

(** The storage directory is the directory of temporary files, and there is
    no remote store. *)
Definition local_in_tmp : World :=
  set_env {[ "AUDIO_STORAGE_DIR" := "/tmp" ]} local_only.

(** A process whose working directory is [/work]: a relative path names
    the file of its absolute form.  Started with [TMPDIR=/work/audio_files]
    and no [AUDIO_STORAGE_DIR], its directory of temporary files is its
    storage directory [./audio_files] under another name. *)
Definition from_cwd (cwd path : string) : string :=
  match path with
  | String c _ => if Ascii.eqb c "/" then filepath_Clean path
                  else filepath_Join cwd path
  | EmptyString => filepath_Clean cwd
  end.

Definition set_realpath (f : string -> string) (w : World) : World :=
  {| files := files w; realpath := f; dirs := dirs w; env := env w;
     clock := clock w; remote := remote w; aborted := aborted w;
     plan := plan w; trace := trace w; logs := logs w;
     agfsClient := agfsClient w; agfsUploadPath := agfsUploadPath w |}.

Definition tmp_is_storage : World :=
  set_realpath (from_cwd "/work")
    (set_env {[ "TMPDIR" := "/work/audio_files" ]} local_only).

(** A disk with a file to save, and the copy breaking after two bytes. *)
Definition one_file : World :=
  set_files {[ "/tmp/a.wav" := [10; 20; 30]%Z; "store/a.wav" := [7; 7; 7; 7; 7]%Z ]}
    local_only.

(** The same disk seen from the working directory [/]. *)
Definition one_file_cwd : World :=
  set_realpath (from_cwd "/")
    (set_files {[ "/tmp/a.wav" := [10; 20; 30]%Z; "/store/a.wav" := [7; 7; 7; 7; 7]%Z ]}
       local_only).

Definition copy_breaks : World :=
  set_plan (fault_at 3 {| transferred := 2; reason := "no space left on device" |})
    one_file.

Definition all_flags : Flags :=
  {| addr := ":9000"; agfsAPIURL := "http://agfs:8080"; agfsPath := "/rec" |}.

Definition path_only : Flags :=
  {| addr := ""; agfsAPIURL := ""; agfsPath := "/rec" |}.

End Outcomes.

Import Outcomes.

(* ===================================================================== *)
(** ** Facts about the encoder *)
(* ===================================================================== *)

Section WavFacts.

Lemma byte_mod (v : Z) : byte v = v mod 256.
Proof. unfold byte. change 255 with (Z.ones 8). now rewrite Z.land_ones by lia. Qed.

Lemma byte_shiftr_mod (v k : Z) : 0 <= k -> byte (Z.shiftr v k) = (v / 2 ^ k) mod 256.
Proof. intros Hk. now rewrite byte_mod, Z.shiftr_div_pow2. Qed.

Lemma uint32_int_add (a b : Z) : uint32 (int_add a b) = (a + b) mod 2 ^ 32.
Proof.
  unfold uint32, int_add, int_wrap.
  replace ((a + b + 2 ^ 63) mod 2 ^ 64 - 2 ^ 63)
    with ((a + b + 2 ^ 63) mod 2 ^ 64 + (- 2 ^ 31) * 2 ^ 32) by lia.
  rewrite Z.mod_add by lia.
  rewrite Z.mod_mod_divide by (exists (2 ^ 32); reflexivity).
  replace (a + b + 2 ^ 63) with (a + b + 2 ^ 31 * 2 ^ 32) by lia.
  now rewrite Z.mod_add by lia.
Qed.

Lemma le_mod (n : nat) (v : Z) : le n (v mod 256 ^ Z.of_nat n) = le n v.
Proof.
  revert v. induction n as [|n IH]; intros v; [reflexivity|].
  cbn [le]. rewrite Nat2Z.inj_succ, Z.pow_succ_r by lia.
  assert (Hp : 0 < 256 ^ Z.of_nat n) by (apply Z.pow_pos_nonneg; lia).
  f_equal.
  - apply Z.mod_mod_divide. exists (256 ^ Z.of_nat n). lia.
  - rewrite <- (IH (v / 256)). f_equal.
    rewrite Z.rem_mul_r by lia.
    rewrite Z.mul_comm, Z.div_add by lia.
    rewrite Z.div_small by (apply Z.mod_pos_bound; lia). reflexivity.
Qed.

Lemma le_length (n : nat) (v : Z) : length (le n v) = n.
Proof. revert v. induction n; intros; cbn; auto. Qed.

Lemma le_is_byte (n : nat) (v : Z) : Forall is_byte (le n v).
Proof.
  revert v. induction n; intros v; cbn [le]; constructor; auto.
  unfold is_byte. apply Z.mod_pos_bound. lia.
Qed.

Lemma le_value_le (n : nat) (v : Z) : le_value (le n v) = v mod 256 ^ Z.of_nat n.
Proof.
  revert v. induction n as [|n IH]; intros v.
  - cbn. now rewrite Z.mod_1_r.
  - cbn [le le_value]. rewrite IH, Nat2Z.inj_succ, Z.pow_succ_r by lia.
    rewrite (Z.rem_mul_r v 256) by lia. reflexivity.
Qed.

End WavFacts.

Lemma le_4_shift (v : Z) (t : list Z) :
  byte v :: byte (Z.shiftr v 8) :: byte (Z.shiftr v 16) :: byte (Z.shiftr v 24) :: t
  = le 4 v ++ t.
Proof.
  rewrite byte_mod, !byte_shiftr_mod by lia. cbn [le app].
  rewrite !Z.div_div by lia. reflexivity.
Qed.

Lemma le_2_shift (v : Z) (t : list Z) :
  byte v :: byte (Z.shiftr v 8) :: t = le 2 v ++ t.
Proof. rewrite byte_mod, !byte_shiftr_mod by lia. reflexivity. Qed.

Lemma le_4_uint32 (v : Z) : le 4 (uint32 v) = le 4 v.
Proof. exact (le_mod 4 v). Qed.

Lemma createWAVHeader_unfold (L : Z) :
  createWAVHeader L =
  bytes "RIFF" ++ le 4 (uint32 (int_add 36 L)) ++ bytes "WAVE" ++
  bytes "fmt " ++ le 4 16 ++ le 2 1 ++ le 2 (uint16 numChannels) ++
  le 4 (uint32 sampleRate) ++
  le 4 (uint32 (sampleRate * numChannels * bitsPerSample / 8)) ++
  le 2 (uint16 (numChannels * bitsPerSample / 8)) ++ le 2 bitsPerSample ++
  bytes "data" ++ le 4 (uint32 L).
Proof.
  cbv [createWAVHeader make replicate on_slice slice firstn skipn app Nat.sub copy length
       bytes map list_ascii_of_string PutUint32 PutUint16 insert list_insert].
  rewrite !le_4_shift, !le_2_shift. reflexivity.
Qed.

Lemma createWAVHeader_is_layout (L : Z) :
  createWAVHeader L = layout (36 + L) L.
Proof.
  rewrite createWAVHeader_unfold, uint32_int_add. fold (uint32 (36 + L)).
  rewrite !le_4_uint32. reflexivity.
Qed.

Lemma layout_length (r d : Z) : length (layout r d) = 44%nat.
Proof. reflexivity. Qed.

Lemma layout_is_byte (r d : Z) : Forall is_byte (layout r d).
Proof.
  unfold layout.
  repeat (apply Forall_app; split); try apply le_is_byte;
    repeat constructor; unfold is_byte; cbn; lia.
Qed.

Lemma slice_length (lo hi : nat) (l : list Z) :
  (hi <= length l)%nat -> length (slice lo hi l) = (hi - lo)%nat.
Proof. intros H. unfold slice. rewrite length_take, length_drop. lia. Qed.

Lemma PutUint32_length (b : list Z) (v : Z) : length (PutUint32 b v) = length b.
Proof. unfold PutUint32. now rewrite !length_insert. Qed.

Lemma PutUint16_length (b : list Z) (v : Z) : length (PutUint16 b v) = length b.
Proof. unfold PutUint16. now rewrite !length_insert. Qed.

Lemma createWAVHeader_length (L : Z) : length (createWAVHeader L) = 44%nat.
Proof. rewrite createWAVHeader_is_layout. apply layout_length. Qed.

(** C1. For every payload length [L >= 0], [createWAVHeader L] is 44 bytes
    (each in [0, 256)) laid out as: 0-3 "RIFF"; 4-7 [36 + L], little endian
    on 32 bits; 8-11 "WAVE"; 12-15 "fmt "; 16-19 the value 16; 20-21 the
    value 1; 22-23 one channel; 24-27 the rate 16000; 28-31 the byte rate
    32000; 32-33 the block align 2; 34-35 16 bits per sample; 36-39 "data";
    40-43 [L], little endian on 32 bits.  The two size fields keep the low
    32 bits (overflow is not checked): they read back as [36 + L] and [L]
    themselves as long as [36 + L] fits 32 bits. *)
Theorem createWAVHeader_layout (L : Z) :
  0 <= L ->
  let h := createWAVHeader L in
  length h = 44%nat /\
  Forall is_byte h /\
  slice 0 4 h = bytes "RIFF" /\
  slice 4 8 h = le 4 (36 + L) /\
  slice 8 12 h = bytes "WAVE" /\
  slice 12 16 h = bytes "fmt " /\
  slice 16 20 h = le 4 16 /\
  slice 20 22 h = le 2 1 /\
  slice 22 24 h = le 2 1 /\
  slice 24 28 h = le 4 16000 /\
  slice 28 32 h = le 4 32000 /\
  slice 32 34 h = le 2 2 /\
  slice 34 36 h = le 2 16 /\
  slice 36 40 h = bytes "data" /\
  slice 40 44 h = le 4 L /\
  le_value (slice 4 8 h) = (36 + L) mod 2 ^ 32 /\
  le_value (slice 40 44 h) = L mod 2 ^ 32 /\
  (36 + L < 2 ^ 32 ->
   le_value (slice 4 8 h) = 36 + L /\ le_value (slice 40 44 h) = L).
Proof.
  intros HL h. subst h. rewrite createWAVHeader_is_layout.
  assert (H4 : slice 4 8 (layout (36 + L) L) = le 4 (36 + L)) by reflexivity.
  assert (H40 : slice 40 44 (layout (36 + L) L) = le 4 L) by reflexivity.
  rewrite H4, H40, !le_value_le.
  change (256 ^ Z.of_nat 4) with (2 ^ 32).
  repeat split; try reflexivity.
  - apply layout_is_byte.
  - apply Z.mod_small. lia.
  - apply Z.mod_small. lia.
Qed.

Lemma createWAVHeader_layout_witness :
  0 <= 4 /\ slice 40 44 (createWAVHeader 4) = le 4 4.
Proof.
  split; [lia | apply (createWAVHeader_layout 4); lia].
Defined.

(* ===================================================================== *)
(** ** The round trip through the reference reader *)
(* ===================================================================== *)

(** The bytes of the whole frames among [n] bytes of 16-bit mono audio. *)
Lemma whole_frames (n : nat) :
  Z.to_nat (Z.of_nat n / frame_size pcm_mono_16k * frame_size pcm_mono_16k)
  = (2 * (n / 2))%nat.
Proof.
  change (frame_size pcm_mono_16k) with 2.
  replace (Z.of_nat n / 2 * 2) with (Z.of_nat (2 * (n / 2))).
  - apply Nat2Z.id.
  - rewrite Nat2Z.inj_mul, Nat2Z.inj_div. change (Z.of_nat 2) with 2. lia.
Qed.

Lemma even_whole (n : nat) : Nat.even n = true -> (2 * (n / 2))%nat = n.
Proof.
  intros H. apply Nat.even_spec in H. destruct H as [k ->].
  rewrite (Nat.mul_comm 2 k), Nat.div_mul by lia. apply Nat.mul_comm.
Qed.

Lemma read_data_chunk (fuel : nat) (p : list Z) (f : Format) :
  Z.of_nat (length p) < 2 ^ 32 ->
  read_chunks (S fuel) (bytes "data" ++ le 4 (Z.of_nat (length p)) ++ p) (Some f)
  = Some {| format := f;
            audio := take (Z.to_nat (Z.of_nat (length p) / frame_size f * frame_size f)) p |}.
Proof.
  intros Hp.
  assert (Hsz : Z.to_nat (le_value (le 4 (Z.of_nat (length p)))) = length p).
  { rewrite le_value_le. change (256 ^ Z.of_nat 4) with (2 ^ 32).
    rewrite Z.mod_small by lia. apply Nat2Z.id. }
  cbn [read_chunks].
  change (slice 4 8 (bytes "data" ++ le 4 (Z.of_nat (length p)) ++ p))
    with (le 4 (Z.of_nat (length p))).
  change (drop 8 (bytes "data" ++ le 4 (Z.of_nat (length p)) ++ p)) with p.
  change (take 4 (bytes "data" ++ le 4 (Z.of_nat (length p)) ++ p)) with (bytes "data").
  rewrite Hsz.
  change (length (bytes "data" ++ le 4 (Z.of_nat (length p)) ++ p) <? 8)%nat with false.
  cbv iota.
  rewrite firstn_all.
  destruct (decide (bytes "data" = bytes "fmt ")) as [E|_]; [discriminate E|].
  destruct (decide (bytes "data" = bytes "data")) as [_|N]; [reflexivity|now destruct N].
Qed.

Lemma read_fmt_chunk (fuel : nat) (tl : list Z) :
  read_chunks (S fuel)
    (bytes "fmt " ++ le 4 16 ++ le 2 1 ++ le 2 1 ++ le 4 16000 ++ le 4 32000 ++
     le 2 2 ++ le 2 16 ++ tl) None
  = read_chunks fuel tl (Some pcm_mono_16k).
Proof. reflexivity. Qed.

(** What the reader makes of a file of the server: the declared format and
    the whole frames of the payload. *)
Lemma parseWAV_layout (payload : list Z) :
  36 + Z.of_nat (length payload) < 2 ^ 32 ->
  parseWAV (createWAVHeader (Z.of_nat (length payload)) ++ payload)
  = Some {| format := pcm_mono_16k;
            audio := take (2 * (length payload / 2)) payload |}.
Proof.
  intros Hfit. set (L := Z.of_nat (length payload)) in *.
  rewrite createWAVHeader_is_layout.
  unfold parseWAV.
  change (take 4 (layout (36 + L) L ++ payload)) with (bytes "RIFF").
  destruct (decide (bytes "RIFF" = bytes "RIFF")) as [_|N]; [|now destruct N].
  change (slice 4 8 (layout (36 + L) L ++ payload)) with (le 4 (36 + L)).
  rewrite le_value_le. change (256 ^ Z.of_nat 4) with (2 ^ 32).
  rewrite Z.mod_small by lia.
  change (drop 8 (layout (36 + L) L ++ payload))
    with (bytes "WAVE" ++ bytes "fmt " ++ le 4 16 ++ le 2 1 ++ le 2 1 ++ le 4 16000 ++
          le 4 32000 ++ le 2 2 ++ le 2 16 ++ bytes "data" ++ le 4 L ++ payload).
  rewrite (take_ge _ (Z.to_nat (36 + L))).
  2:{ rewrite !length_app, !le_length. cbn [bytes length map list_ascii_of_string].
      subst L. lia. }
  change (take 4 (bytes "WAVE" ++ ?t)) with (bytes "WAVE").
  destruct (decide (bytes "WAVE" = bytes "WAVE")) as [_|N]; [|now destruct N].
  change (drop 4 (bytes "WAVE" ++ ?t)) with t.
  rewrite !length_app, !le_length. cbn [bytes length map list_ascii_of_string Nat.add].
  rewrite read_fmt_chunk.
  subst L. rewrite read_data_chunk by lia. now rewrite whole_frames.
Qed.

(** C4, as the code has it. For every payload of a whole number of frames
    (an even number of bytes: a frame is one 16-bit sample) whose length
    plus 36 fits 32 bits, the header for its length followed by the payload
    is a file of [44 + length payload] bytes that the reader decodes to the
    PCM mono 16 kHz 16-bit format and to exactly the payload as audio data,
    that is to [length payload / 2] frames (none for the empty payload,
    whose file is the 44 bytes of the header). *)
Theorem wav_round_trip (payload : list Z) :
  36 + Z.of_nat (length payload) < 2 ^ 32 ->
  Nat.even (length payload) = true ->
  let file := createWAVHeader (Z.of_nat (length payload)) ++ payload in
  length file = (44 + length payload)%nat /\
  parseWAV file = Some {| format := pcm_mono_16k; audio := payload |} /\
  (forall f, parseWAV file = Some f ->
             audio f = payload /\ frames f = Z.of_nat (length payload) / 2).
Proof.
  intros Hfit Heven file. subst file.
  split; [now rewrite length_app, createWAVHeader_length|].
  rewrite (parseWAV_layout payload Hfit), (even_whole _ Heven), firstn_all.
  split; [reflexivity|]. intros f [= <-]. now split.
Qed.

Lemma wav_round_trip_witness :
  36 + Z.of_nat (length [1; 2; 3; 4]) < 2 ^ 32 /\
  Nat.even (length [1; 2; 3; 4]) = true /\
  length (createWAVHeader 4 ++ [1; 2; 3; 4]) = 48%nat /\
  parseWAV (createWAVHeader 4 ++ [1; 2; 3; 4])
  = Some {| format := pcm_mono_16k; audio := [1; 2; 3; 4] |} /\
  36 + Z.of_nat (length (@nil Z)) < 2 ^ 32 /\
  parseWAV (createWAVHeader 0 ++ []) = Some {| format := pcm_mono_16k; audio := [] |} /\
  frames {| format := pcm_mono_16k; audio := [] |} = 0.
Proof.
  assert (H4 : 36 + Z.of_nat (length [1; 2; 3; 4]) < 2 ^ 32) by (cbn; lia).
  assert (E4 : Nat.even (length [1; 2; 3; 4]) = true) by reflexivity.
  assert (H0 : 36 + Z.of_nat (length (@nil Z)) < 2 ^ 32) by (cbn; lia).
  assert (E0 : Nat.even (length (@nil Z)) = true) by reflexivity.
  destruct (wav_round_trip [1; 2; 3; 4] H4 E4) as (Hl4 & Hp4 & _).
  destruct (wav_round_trip [] H0 E0) as (_ & Hp0 & _).
  split; [exact H4|]. split; [exact E4|]. split; [exact Hl4|]. split; [exact Hp4|].
  split; [exact H0|]. split; [exact Hp0|]. reflexivity.
Defined.

Lemma four_GiB_length : Z.of_nat (length four_GiB) = 2 ^ 32.
Proof. unfold four_GiB. rewrite length_replicate. apply Z2Nat.id. lia. Qed.

(** C4 fails as stated, in two ways.  A payload of an odd number of bytes
    ends in half a frame, which the reader does not deliver: of the three
    bytes [1; 2; 3] it reads two.  And for a payload of 4 GiB the data size
    field of the header is 0, and the reader decodes the file to no audio
    data at all. *)
Lemma payload_not_read_back :
  (parseWAV (createWAVHeader (Z.of_nat (length [1; 2; 3])) ++ [1; 2; 3])
   = Some {| format := pcm_mono_16k; audio := [1; 2] |})
  /\ (parseWAV (createWAVHeader (Z.of_nat (length four_GiB)) ++ four_GiB)
      = Some {| format := pcm_mono_16k; audio := [] |}
      /\ four_GiB <> []).
Proof.
  split; [|split].
  - vm_compute. reflexivity.
  - rewrite four_GiB_length. generalize four_GiB. intros p.
    rewrite createWAVHeader_is_layout. vm_compute. reflexivity.
  - intros H. pose proof four_GiB_length as Hl. rewrite H in Hl. discriminate Hl.
Qed.

(* ===================================================================== *)
(** ** Rules for runs *)
(* ===================================================================== *)

Section Rules.

Local Open Scope string_scope.

Lemma wp_ret {A} (a : A) Q w : Q a w -> wp (ret a) Q w.
Proof. exact id. Qed.

Lemma wp_bind {A B} (m : M A) (f : A -> M B) Q w :
  wp m (fun a w' => wp (f a) Q w') w -> wp (bind m f) Q w.
Proof. unfold wp, bind. now destruct (m w). Qed.

Lemma wp_defer {A} (d : M unit) (body : M A) Q w :
  wp body (fun a w' => Q a (d w').2) w -> wp (defer d body) Q w.
Proof. unfold wp, defer. now destruct (body w). Qed.

Lemma wp_read {A} (f : World -> A) Q w : Q (f w) w -> wp (read f) Q w.
Proof. exact id. Qed.

Lemma wp_assign (f : World -> World) Q w : Q tt (f w) -> wp (assign f) Q w.
Proof. exact id. Qed.

Lemma wp_mono {A} (m : M A) (Q Q' : A -> World -> Prop) w :
  (forall a w', Q a w' -> Q' a w') -> wp m Q w -> wp m Q' w.
Proof. unfold wp. auto. Qed.

Lemma wp_log line Q w :
  Q tt (set_logs (logs w ++ [line]) w) -> wp (log_Printf line) Q w.
Proof. exact id. Qed.

Lemma wp_io_ReadAll body Q w :
  (forall e, Q (Err e) (record IoReadAll (Some e) w)) ->
  Q (Ok body) (record IoReadAll None w) ->
  wp (io_ReadAll body) Q w.
Proof. unfold wp, io_ReadAll. intros. destruct (pending w); cbn; auto. Qed.

Lemma wp_Body_Close Q w : Q tt (record BodyClose None w) -> wp Body_Close Q w.
Proof. exact id. Qed.

Lemma wp_time_Now Q w : Q (clock w) (record TimeNow None w) -> wp time_Now Q w.
Proof. exact id. Qed.

Lemma wp_os_Getenv key Q w :
  Q (getenv (env w) key) (record (OsGetenv key) None w) -> wp (os_Getenv key) Q w.
Proof. exact id. Qed.

Lemma wp_os_TempDir Q w :
  Q (temp_dir (env w)) (record OsTempDir None w) -> wp os_TempDir Q w.
Proof. exact id. Qed.

Lemma wp_os_Create path Q w :
  (forall e, Q (Err e) (record (OsCreate path) (Some e) w)) ->
  Q (Ok {| Name := path |})
    (record (OsCreate path) None
       (set_files (<[realpath w path := []]> (files w)) w)) ->
  wp (os_Create path) Q w.
Proof. unfold wp, os_Create. intros. destruct (pending w); cbn; auto. Qed.

Lemma wp_File_Write f data Q w :
  (forall flt : option Fault,
     Q (length (moved flt data), reason <$> flt)
       (record (FileWrite (Name f) data) (reason <$> flt)
          (append_file (Name f) (moved flt data) w))) ->
  wp (File_Write f data) Q w.
Proof. intros H. apply H. Qed.

Lemma wp_File_Close f Q w :
  Q tt (record (FileClose (Name f)) None w) -> wp (File_Close f) Q w.
Proof. exact id. Qed.

Lemma wp_os_ReadFile path Q w :
  (forall e, Q (Err e) (record (OsReadFile path) (Some e) w)) ->
  (forall data, file_at w path = Some data ->
     Q (Ok data) (record (OsReadFile path) None w)) ->
  wp (os_ReadFile path) Q w.
Proof.
  unfold wp, os_ReadFile. intros. destruct (pending w); cbn; auto.
  destruct (file_at w path) eqn:?; cbn; auto.
Qed.

Lemma wp_os_MkdirAll dir Q w :
  (forall e, Q (Some e) (record (OsMkdirAll dir) (Some e) w)) ->
  Q None (record (OsMkdirAll dir) None (set_dirs ({[dir]} ∪ dirs w) w)) ->
  wp (os_MkdirAll dir) Q w.
Proof. unfold wp, os_MkdirAll. intros. destruct (pending w); cbn; auto. Qed.

Lemma wp_os_Open path Q w :
  (forall e, Q (Err e) (record (OsOpen path) (Some e) w)) ->
  (forall data, file_at w path = Some data ->
     Q (Ok {| Name := path |}) (record (OsOpen path) None w)) ->
  wp (os_Open path) Q w.
Proof.
  unfold wp, os_Open. intros. destruct (pending w); cbn; auto.
  destruct (file_at w path) eqn:?; cbn; eauto.
Qed.

Lemma wp_io_Copy dst src Q w :
  (forall e part,
     Q (length part, Some e)
       (record (IoCopy (Name dst) (Name src)) (Some e) (append_file (Name dst) part w))) ->
  Q (length (content (Name src) w), None)
    (record (IoCopy (Name dst) (Name src)) None
       (append_file (Name dst) (content (Name src) w) w)) ->
  wp (io_Copy dst src) Q w.
Proof. unfold wp, io_Copy. intros. destruct (pending w); cbn; auto. Qed.

Lemma wp_Client_Write c path data Q w :
  (forall e,
     Q (Some e)
       (record (AgfsWrite path data) (Some e)
          (set_remote (aborted w path data (remote w)) w))) ->
  Q None (record (AgfsWrite path data) None (set_remote (<[path := data]> (remote w)) w)) ->
  wp (Client_Write c path data) Q w.
Proof. unfold wp, Client_Write. intros. destruct (pending w); cbn; auto. Qed.

Lemma drop_trace {A} (t evs : list A) : drop (length t) (t ++ evs) = evs.
Proof. apply drop_app_length. Qed.

End Rules.

(** Normal form of the state after a step. *)
Ltac wp_red :=
  cbv beta iota zeta delta [append_file content file_at];
  cbn [Name fst snd
       files realpath dirs env clock remote aborted plan trace logs
       agfsClient agfsUploadPath
       record append_file set_files set_dirs set_remote set_trace set_logs
       set_agfsClient set_agfsUploadPath File_Close Body_Close content file_at].

Ltac wp_red_in H :=
  cbv beta iota zeta delta [append_file content file_at] in H;
  cbn [Name fst snd
       files realpath dirs env clock remote aborted plan trace logs
       agfsClient agfsUploadPath
       record append_file set_files set_dirs set_remote set_trace set_logs
       set_agfsClient set_agfsUploadPath File_Close Body_Close content file_at] in H.

(** One step of the program, following the branches of fallible calls. *)
Ltac wp_step :=
  lazymatch goal with
  | |- wp (bind _ _) _ _ => apply wp_bind
  | |- wp (ret _) _ _ => apply wp_ret
  | |- wp (defer _ _) _ _ => apply wp_defer
  | |- wp (read _) _ _ => apply wp_read
  | |- wp (assign _) _ _ => apply wp_assign
  | |- wp (log_Printf _) _ _ => apply wp_log
  | |- wp (io_ReadAll _) _ _ => apply wp_io_ReadAll; [intros ? | ]
  | |- wp Body_Close _ _ => apply wp_Body_Close
  | |- wp time_Now _ _ => apply wp_time_Now
  | |- wp (os_Getenv _) _ _ => apply wp_os_Getenv
  | |- wp os_TempDir _ _ => apply wp_os_TempDir
  | |- wp (os_Create _) _ _ => apply wp_os_Create; [intros ? | ]
  | |- wp (File_Write _ _) _ _ =>
    apply wp_File_Write; intros ?; wp_red; rewrite ?lookup_insert_eq;
    cbn [from_option id app]
  | |- wp (File_Close _) _ _ => apply wp_File_Close
  | |- wp (os_ReadFile _) _ _ =>
    apply wp_os_ReadFile; [intros ? | let H := fresh "Hfile" in intros ? H; wp_red_in H]
  | |- wp (os_MkdirAll _) _ _ => apply wp_os_MkdirAll; [intros ? | ]
  | |- wp (os_Open _) _ _ =>
    apply wp_os_Open; [intros ? | let H := fresh "Hfile" in intros ? H; wp_red_in H]
  | |- wp (io_Copy _ _) _ _ => apply wp_io_Copy; [intros ? ? | ]
  | |- wp (Client_Write _ _ _) _ _ => apply wp_Client_Write; [intros ? | ]
  | |- wp (saveFileLocally _ _ _) _ _ => unfold saveFileLocally
  | |- wp (uploadToAGFS _ _) _ _ => unfold uploadToAGFS
  | |- wp (handlePostAudio _) _ _ => unfold handlePostAudio
  | |- wp (main _) _ _ => unfold main
  | |- wp (match agfsClient ?w with _ => _ end) _ _ =>
    first [ match goal with H : agfsClient w = _ |- _ => rewrite H end
          | destruct (agfsClient w) eqn:? ]
  end; wp_red.

Ltac wp_run := repeat wp_step.

(** At the end of a path: the calls made, oldest first. *)
Ltac wp_trace :=
  repeat rewrite <- app_assoc; cbn [app]; rewrite ?drop_trace, ?drop_all.

(* ===================================================================== *)
(** ** Runs that differ in the log only *)
(* ===================================================================== *)

Section Rel.

Local Open Scope string_scope.

Lemma same_but_logs_refl w : same_but_logs w w.
Proof. repeat split. Qed.

Lemma rel_ret {A} (a : A) : rel (ret a) (ret a).
Proof. intros w1 w2 H. now split. Qed.

Lemma rel_bind {A B} (m1 m2 : M A) (f1 f2 : A -> M B) :
  rel m1 m2 -> (forall a, rel (f1 a) (f2 a)) -> rel (bind m1 f1) (bind m2 f2).
Proof.
  intros Hm Hf w1 w2 H. unfold bind.
  destruct (Hm w1 w2 H) as [Ha Hw].
  destruct (m1 w1) as [a1 w1'], (m2 w2) as [a2 w2']. cbn in Ha, Hw. subst a2.
  now apply Hf.
Qed.

Lemma rel_defer {A} (d1 d2 : M unit) (m1 m2 : M A) :
  rel d1 d2 -> rel m1 m2 -> rel (defer d1 m1) (defer d2 m2).
Proof.
  intros Hd Hm w1 w2 H. unfold defer.
  destruct (Hm w1 w2 H) as [Ha Hw].
  destruct (m1 w1) as [a1 w1'], (m2 w2) as [a2 w2']. cbn in Ha, Hw. subst a2.
  split; [reflexivity|]. now apply Hd.
Qed.

Lemma rel_log (l1 l2 : string) : rel (log_Printf l1) (log_Printf l2).
Proof. intros w1 w2 H. split; [reflexivity|exact H]. Qed.

(** A step that does not look at the log is related to itself. *)
Ltac rel_self :=
  let w1 := fresh "w" in let w2 := fresh "w" in
  intros w1 w2 (Hf & Hd & He & Hc & Hr & Hp & Ht & Ha & Hu & Hn & Hb);
  destruct w1, w2; cbn in Hf, Hd, He, Hc, Hr, Hp, Ht, Ha, Hu, Hn, Hb; subst;
  cbv [io_ReadAll Body_Close time_Now os_Getenv os_TempDir os_Create File_Write
       File_Close os_ReadFile os_MkdirAll os_Open io_Copy Client_Write read
       pending record append_file content file_at
       set_files set_dirs set_remote set_trace
       files realpath dirs env clock remote aborted plan trace logs
       agfsClient agfsUploadPath same_but_logs fst snd];
  repeat match goal with
         | |- context [match ?x with _ => _ end] =>
           lazymatch x with
           | @lookup _ _ _ _ _ _ => destruct x
           | ?f _ => is_var f; destruct x
           end
         end;
  repeat split; reflexivity.

Lemma rel_io_ReadAll b : rel (io_ReadAll b) (io_ReadAll b).
Proof. rel_self. Qed.
Lemma rel_Body_Close : rel Body_Close Body_Close.
Proof. rel_self. Qed.
Lemma rel_time_Now : rel time_Now time_Now.
Proof. rel_self. Qed.
Lemma rel_os_Getenv k : rel (os_Getenv k) (os_Getenv k).
Proof. rel_self. Qed.
Lemma rel_os_TempDir : rel os_TempDir os_TempDir.
Proof. rel_self. Qed.
Lemma rel_os_Create p : rel (os_Create p) (os_Create p).
Proof. rel_self. Qed.
Lemma rel_File_Write f d : rel (File_Write f d) (File_Write f d).
Proof. rel_self. Qed.
Lemma rel_File_Close f : rel (File_Close f) (File_Close f).
Proof. rel_self. Qed.
Lemma rel_os_ReadFile p : rel (os_ReadFile p) (os_ReadFile p).
Proof. rel_self. Qed.
Lemma rel_os_MkdirAll d : rel (os_MkdirAll d) (os_MkdirAll d).
Proof. rel_self. Qed.
Lemma rel_os_Open p : rel (os_Open p) (os_Open p).
Proof. rel_self. Qed.
Lemma rel_io_Copy d s : rel (io_Copy d s) (io_Copy d s).
Proof. rel_self. Qed.
Lemma rel_Client_Write c p d : rel (Client_Write c p d) (Client_Write c p d).
Proof. rel_self. Qed.
Lemma rel_read_agfsClient : rel (read agfsClient) (read agfsClient).
Proof. rel_self. Qed.
Lemma rel_read_agfsUploadPath : rel (read agfsUploadPath) (read agfsUploadPath).
Proof. rel_self. Qed.

End Rel.

Ltac rel_step :=
  cbv zeta;
  lazymatch goal with
  | |- rel (bind _ _) (bind _ _) => apply rel_bind; [|intros ?]
  | |- rel (ret _) (ret _) => apply rel_ret
  | |- rel (defer _ _) (defer _ _) => apply rel_defer
  | |- rel (log_Printf _) (log_Printf _) => apply rel_log
  | |- rel (io_ReadAll _) _ => apply rel_io_ReadAll
  | |- rel Body_Close _ => apply rel_Body_Close
  | |- rel time_Now _ => apply rel_time_Now
  | |- rel (os_Getenv _) _ => apply rel_os_Getenv
  | |- rel os_TempDir _ => apply rel_os_TempDir
  | |- rel (os_Create _) _ => apply rel_os_Create
  | |- rel (File_Write _ _) _ => apply rel_File_Write
  | |- rel (File_Close _) _ => apply rel_File_Close
  | |- rel (os_ReadFile _) _ => apply rel_os_ReadFile
  | |- rel (os_MkdirAll _) _ => apply rel_os_MkdirAll
  | |- rel (os_Open _) _ => apply rel_os_Open
  | |- rel (io_Copy _ _) _ => apply rel_io_Copy
  | |- rel (Client_Write _ _ _) _ => apply rel_Client_Write
  | |- rel (read agfsClient) _ => apply rel_read_agfsClient
  | |- rel (read agfsUploadPath) _ => apply rel_read_agfsUploadPath
  | |- rel (match ?a with _ => _ end) _ => destruct a
  end.

Lemma rel_saveFileLocally d f t : rel (saveFileLocally d f t) (saveFileLocally d f t).
Proof. unfold saveFileLocally. repeat rel_step. Qed.

Lemma rel_uploadToAGFS p f : rel (uploadToAGFS p f) (uploadToAGFS p f).
Proof. unfold uploadToAGFS. repeat rel_step. Qed.

Lemma rel_handlePostAudio (r1 r2 : Request) :
  body r1 = body r2 -> rel (handlePostAudio r1) (handlePostAudio r2).
Proof.
  intros Hb. unfold handlePostAudio. rewrite Hb.
  repeat first [ apply rel_saveFileLocally | apply rel_uploadToAGFS | rel_step ].
Qed.


(* ===================================================================== *)
(** ** The local save *)
(* ===================================================================== *)

(** At the end of a path: compute what the property says of the calls. *)
Ltac wp_leaf :=
  wp_trace;
  cbn -[filepath_Join filename_of createWAVHeader temp_dir getenv String.append].

Lemma wrapped_inj (s1 s2 : LocalStep) (e1 e2 : error) :
  wrapped s1 e1 = wrapped s2 e2 -> s1 = s2 /\ e1 = e2.
Proof.
  destruct s1, s2; intros H; cbv [wrapped String.append] in H; split; congruence.
Qed.

Lemma saveFileLocally_result_wp (storageDir fileName tempFilePath : string) (w : World) :
  wp (saveFileLocally storageDir fileName tempFilePath)
     (fun res w' =>
        let evs := drop (length (trace w)) (trace w') in
        res = (fun p => wrapped p.1 p.2) <$> first_failure evs /\
        calls evs
        = local_save_calls storageDir fileName tempFilePath (fst <$> first_failure evs)) w.
Proof. wp_run; wp_trace; split; reflexivity. Qed.

(** Every step can fail, with any error: on a disk that has the source, let
    the call of that step be the one that fails. *)
Lemma local_save_can_fail (storageDir fileName tempFilePath : string)
    (s : LocalStep) (e : error) :
  exists w0, (saveFileLocally storageDir fileName tempFilePath w0).1
             = Some (wrapped s e).
Proof.
  set (w1 := set_files {[tempFilePath := []]} local_only).
  destruct s;
    [exists (failing 0 e w1) | exists (failing 1 e w1)
    | exists (failing 2 e w1) | exists (failing 3 e w1)].
  all: unfold saveFileLocally, bind, defer, os_MkdirAll, os_Open, os_Create, io_Copy,
         pending, file_at, ret.
  all: cbn [failing set_plan plan trace length fault_at Nat.eqb w1 set_files local_only
            record set_trace set_dirs files realpath fst snd app reason wrapped
            fmap option_fmap option_map].
  all: try reflexivity.
  all: rewrite lookup_singleton_eq.
  all: cbn [failing set_plan plan trace length fault_at Nat.eqb w1 set_files local_only
            record set_trace set_dirs files realpath fst snd app reason wrapped
            fmap option_fmap option_map append_file].
  all: reflexivity.
Qed.

Lemma local_failure_is_500_wp (r : Request) (w : World) :
  wp (handlePostAudio r)
     (fun resp w' =>
        let evs := drop (length (trace w)) (trace w') in
        let lines := drop (length (logs w)) (logs w') in
        forall s e, first_failure evs = Some (s, e) ->
          status resp = StatusInternalServerError /\
          (mkdirs evs <> [] ->
           last lines = Some ("Failed to save file locally: " +:+ wrapped s e) /\
           (text resp = "Failed to save file" +:+ newline \/
            text resp = "Failed to save file to local storage" +:+ newline))) w.
Proof.
  wp_run; wp_leaf; intros s e' [= <- <-]; (split; [reflexivity|]);
    intros Hm; first [now destruct Hm | split; [reflexivity|auto]].
Qed.

(** C6. Each of the four steps of the local save (making the directory,
    opening the source, creating the destination, copying) can fail and
    gives its own error.  [saveFileLocally] makes the four calls in that
    order, on the storage directory, the source, the file name joined to the
    directory, and from the source to that file; it stops at the first step
    that fails, closes what it had opened, and returns the error of that
    step wrapped in the text of the step; it returns nil when none failed.
    Whatever the step and the error, there are surroundings in which that
    step fails with that error, and the four texts tell the steps apart
    whatever the underlying errors are.  A request in whose handling such a
    step fails is answered with status 500; when the step is one of the
    local save, the wrapped error is the last line logged and the text of
    the answer is one of the two for a failed save. *)
Theorem local_save_errors (storageDir fileName tempFilePath : string)
    (r : Request) (w : World) :
  let evs := events (saveFileLocally storageDir fileName tempFilePath) w in
  let hevs := events (handlePostAudio r) w in
  (saveFileLocally storageDir fileName tempFilePath w).1
  = (fun p => wrapped p.1 p.2) <$> first_failure evs
  /\ calls evs
     = local_save_calls storageDir fileName tempFilePath (fst <$> first_failure evs)
  /\ (forall s e, exists w0,
        (saveFileLocally storageDir fileName tempFilePath w0).1 = Some (wrapped s e))
  /\ (forall s1 s2 e1 e2, wrapped s1 e1 = wrapped s2 e2 -> s1 = s2 /\ e1 = e2)
  /\ (first_failure hevs <> None ->
      status (handlePostAudio r w).1 = StatusInternalServerError)
  /\ (forall s e, first_failure hevs = Some (s, e) -> mkdirs hevs <> [] ->
      last (logged (handlePostAudio r) w)
      = Some ("Failed to save file locally: " +:+ wrapped s e)%string /\
      (text (handlePostAudio r w).1 = ("Failed to save file" +:+ newline)%string \/
       text (handlePostAudio r w).1
       = ("Failed to save file to local storage" +:+ newline)%string)).
Proof.
  intros evs hevs.
  destruct (saveFileLocally_result_wp storageDir fileName tempFilePath w) as [Hres Hcalls].
  pose proof (local_failure_is_500_wp r w) as Hh.
  split; [exact Hres|]. split; [exact Hcalls|].
  split; [exact (local_save_can_fail storageDir fileName tempFilePath)|].
  split; [exact wrapped_inj|]. split.
  - intros Hf. destruct (first_failure hevs) as [[s e]|] eqn:E; [|now destruct Hf].
    exact (proj1 (Hh s e E)).
  - intros s e E Hm. exact (proj2 (Hh s e E) Hm).
Qed.

Lemma local_save_errors_witness :
  let save := saveFileLocally "./audio_files" "a.wav" "/tmp/a.wav" in
  let io := "input/output error"%string in
  (save (failing 0 io recorded)).1
  = Some "failed to create storage directory: input/output error"%string
  /\ (save (failing 1 io recorded)).1
     = Some "failed to open source file: input/output error"%string
  /\ (save (failing 2 io recorded)).1
     = Some "failed to create destination file: input/output error"%string
  /\ (save (failing 3 io recorded)).1
     = Some "failed to copy file: input/output error"%string
  /\ (save recorded).1 = None
  /\ calls (events save recorded)
     = [OsMkdirAll "./audio_files"; OsOpen "/tmp/a.wav"; OsCreate "audio_files/a.wav";
        IoCopy "audio_files/a.wav" "/tmp/a.wav"; FileClose "audio_files/a.wav";
        FileClose "/tmp/a.wav"]
  /\ first_failure (events (handlePostAudio four_samples) read_only)
     = Some (MkdirStep, "permission denied"%string)
  /\ status (handlePostAudio four_samples read_only).1 = StatusInternalServerError
  /\ last (logged (handlePostAudio four_samples) read_only)
     = Some ("Failed to save file locally: "
             +:+ "failed to create storage directory: permission denied")%string.
Proof.
  intros save io.
  pose proof (fun w => local_save_errors "./audio_files" "a.wav" "/tmp/a.wav"
                         four_samples w) as T.
  assert (H : first_failure (events (handlePostAudio four_samples) read_only)
              = Some (MkdirStep, "permission denied"%string))
    by (vm_compute; reflexivity).
  assert (Hm : mkdirs (events (handlePostAudio four_samples) read_only) <> [])
    by (vm_compute; discriminate).
  split; [rewrite (proj1 (T _)); vm_compute; reflexivity|].
  split; [rewrite (proj1 (T _)); vm_compute; reflexivity|].
  split; [rewrite (proj1 (T _)); vm_compute; reflexivity|].
  split; [rewrite (proj1 (T _)); vm_compute; reflexivity|].
  split; [rewrite (proj1 (T _)); vm_compute; reflexivity|].
  split; [rewrite (proj1 (proj2 (T _))); vm_compute; reflexivity|].
  split; [exact H|].
  destruct (T read_only) as (_ & _ & _ & _ & H500 & Hlog).
  split; [apply H500; rewrite H; discriminate|].
  exact (proj1 (Hlog _ _ H Hm)).
Defined.
(* ===================================================================== *)
(** ** The storage router *)
(* ===================================================================== *)

Lemma remote_failure_wp (r : Request) (w : World) :
  wp (handlePostAudio r)
     (fun resp w' =>
        let evs := drop (length (trace w)) (trace w') in
        remote_write_failed evs = true ->
        length (remote_writes evs) = 1%nat /\
        mkdirs evs = [configured_dir (env w)] /\
        (creates evs = [tempFilePath_in w] \/
         creates evs = [tempFilePath_in w; destPath_in w]) /\
        (copies evs = [] \/ copies evs = [(destPath_in w, tempFilePath_in w)]) /\
        (first_failure evs = None ->
         status resp = StatusOK /\
         text resp = "Audio bytes received and saved as " +:+ filename_in w /\
         copy_ok evs = true /\
         is_Some (file_at w' (destPath_in w)))) w.
Proof.
  unfold file_at, destPath_in, tempFilePath_in, configured_dir, filename_in.
  wp_run; wp_leaf; try (intros; discriminate).
  all: intros _; repeat split; auto; try discriminate.
  all: rewrite lookup_insert_eq; eauto.
Qed.

(** C2. When the remote write of a request fails, the handler does not
    write remotely again and makes exactly one attempt at the local save: it
    makes one directory, the storage directory, creates no file but the
    temporary one and the one named after the request in that directory, and
    copies nothing but the former to the latter.  If no step of that local
    save fails, the copy is made, the file is there and the answer is 200
    with the name of the file: the failed remote write by itself is not an
    error for the client. *)
Theorem remote_failure_falls_back (r : Request) (w : World) :
  let evs := events (handlePostAudio r) w in
  let resp := (handlePostAudio r w).1 in
  let w' := (handlePostAudio r w).2 in
  remote_write_failed evs = true ->
  length (remote_writes evs) = 1%nat /\
  mkdirs evs = [configured_dir (env w)] /\
  (creates evs = [tempFilePath_in w] \/
   creates evs = [tempFilePath_in w; destPath_in w]) /\
  (copies evs = [] \/ copies evs = [(destPath_in w, tempFilePath_in w)]) /\
  (first_failure evs = None ->
   status resp = StatusOK /\
   text resp = ("Audio bytes received and saved as " +:+ filename_in w)%string /\
   copy_ok evs = true /\
   is_Some (file_at w' (destPath_in w))).
Proof. exact (remote_failure_wp r w). Qed.

Lemma remote_failure_falls_back_witness :
  remote_write_failed (events (handlePostAudio four_samples) remote_down) = true
  /\ status (handlePostAudio four_samples remote_down).1 = StatusOK
  /\ mkdirs (events (handlePostAudio four_samples) remote_down) = ["./audio_files"%string].
Proof.
  assert (H : remote_write_failed (events (handlePostAudio four_samples) remote_down) = true)
    by (vm_compute; reflexivity).
  destruct (remote_failure_falls_back four_samples remote_down H)
    as (_ & Hdir & _ & _ & Hok).
  split; [exact H|]. split.
  - apply Hok. vm_compute. reflexivity.
  - rewrite Hdir. vm_compute. reflexivity.
Defined.

Lemma remote_success_wp (r : Request) (w : World) :
  wp (handlePostAudio r)
     (fun resp w' =>
        let evs := drop (length (trace w)) (trace w') in
        remote_write_ok evs = true ->
        status resp = StatusOK /\
        text resp = "Audio bytes received and saved as " +:+ filename_in w /\
        length (remote_writes evs) = 1%nat /\
        forallb (fun e => negb (is_local_step (call e))) evs = true /\
        creates evs = [tempFilePath_in w] /\
        dirs w' = dirs w /\
        (forall p, ~ same_file w p (tempFilePath_in w) -> file_at w' p = file_at w p)) w.
Proof.
  unfold same_file, file_at, tempFilePath_in, filename_in.
  wp_run; wp_leaf; try (intros; discriminate).
  intros _; repeat split; auto.
  intros p Hp. now rewrite !lookup_insert_ne by congruence.
Qed.

(** C3, as the code has it. When the remote write of a request succeeds,
    the answer is 200 and the local save is not attempted: the handler makes
    no directory, opens and copies nothing, and the one file it creates or
    writes is the temporary file [join(TempDir, filename)]; the directories
    are as before and so is what is found at every path that names another
    file.  (The temporary file
    stays; it lies in the storage directory when that directory is the
    directory of temporary files.) *)
Theorem remote_success_skips_local (r : Request) (w : World) :
  let evs := events (handlePostAudio r) w in
  let resp := (handlePostAudio r w).1 in
  let w' := (handlePostAudio r w).2 in
  remote_write_ok evs = true ->
  status resp = StatusOK /\
  text resp = ("Audio bytes received and saved as " +:+ filename_in w)%string /\
  length (remote_writes evs) = 1%nat /\
  forallb (fun e => negb (is_local_step (call e))) evs = true /\
  creates evs = [tempFilePath_in w] /\
  dirs w' = dirs w /\
  (forall p, ~ same_file w p (tempFilePath_in w) -> file_at w' p = file_at w p).
Proof. exact (remote_success_wp r w). Qed.

Lemma remote_success_skips_local_witness :
  remote_write_ok (events (handlePostAudio four_samples) with_remote) = true
  /\ status (handlePostAudio four_samples with_remote).1 = StatusOK
  /\ dirs (handlePostAudio four_samples with_remote).2 = ∅.
Proof.
  assert (H : remote_write_ok (events (handlePostAudio four_samples) with_remote) = true)
    by (vm_compute; reflexivity).
  destruct (remote_success_skips_local four_samples with_remote H)
    as (Hs & _ & _ & _ & _ & Hd & _).
  split; [exact H|]. split; [exact Hs|exact Hd].
Defined.

(** C3 fails as stated: with [AUDIO_STORAGE_DIR=/tmp] the remote write
    succeeds and yet the storage directory has a new file, under the name of
    the request: the temporary file. *)
Lemma remote_success_writes_storage_dir :
  let w := storage_is_tmp in
  let w' := (handlePostAudio four_samples w).2 in
  remote_write_ok (events (handlePostAudio four_samples) w) = true /\
  configured_dir (env w) = "/tmp"%string /\
  destPath_in w = "/tmp/30_10_2026_12_00_07.wav"%string /\
  file_at w (destPath_in w) = None /\
  file_at w' (destPath_in w) = Some (createWAVHeader 4 ++ [1; 2; 3; 4]).
Proof. vm_compute. repeat split; reflexivity. Qed.

Lemma write_errors_wp (r : Request) (w : World) :
  wp (handlePostAudio r)
     (fun resp w' =>
        let evs := drop (length (trace w)) (trace w') in
        write_failed evs = true ->
        existsb (fun e => is_storage_entry (call e)) evs = true /\
        (status resp = StatusOK <->
         remote_write_ok evs = true \/ copy_ok evs = true) /\
        exists flt1 flt2 : option Fault,
          (flt1 <> None \/ flt2 <> None) /\
          let stored := (moved flt1 (createWAVHeader (Z.of_nat (length (body r))))
                         ++ moved flt2 (body r))%list in
          (remote_write_ok evs = true ->
           remote w' !! remote_path w (filename_in w) = Some stored) /\
          (copy_ok evs = true -> ~ same_file w (tempFilePath_in w) (destPath_in w) ->
           file_at w' (destPath_in w) = Some stored)) w.
Proof.
  unfold same_file, file_at, destPath_in, tempFilePath_in, configured_dir, filename_in,
    remote_path.
  wp_run; wp_leaf; try (intros; discriminate).
  all: intros Hw; split; [reflexivity|].
  all: split; [split; [intros; auto; try discriminate
                      | intros [?|?]; try discriminate; try reflexivity]|].
  all: exists flt, flt0.
  all: (split;
        [clear -Hw; destruct flt as [?|], flt0 as [?|]; cbn in Hw;
         try discriminate Hw; [left|left|right]; congruence|]).
  all: split; try (intros; discriminate).
  all: intros _.
  all: try (intros Hne; rewrite lookup_insert_eq, lookup_insert_eq;
            rewrite lookup_insert_ne by congruence;
            rewrite lookup_insert_eq; reflexivity).
  rewrite lookup_insert_eq in Hfile. injection Hfile as <-.
  repeat case_decide; try congruence; apply lookup_insert_eq.
Qed.

(** C10. The results of the two writes to the temporary file are dropped:
    when one of them fails, the handler goes on to the storage part all the
    same, and the answer is 200 exactly when the remote write or the local
    copy succeeds.  What is stored then is what the two writes got through,
    a prefix of the header followed by a prefix of the body, at least one of
    them cut by a fault. *)
Theorem write_errors_are_dropped (r : Request) (w : World) :
  let evs := events (handlePostAudio r) w in
  let resp := (handlePostAudio r w).1 in
  let w' := (handlePostAudio r w).2 in
  write_failed evs = true ->
  existsb (fun e => is_storage_entry (call e)) evs = true /\
  (status resp = StatusOK <-> remote_write_ok evs = true \/ copy_ok evs = true) /\
  exists flt1 flt2 : option Fault,
    (flt1 <> None \/ flt2 <> None) /\
    let stored := (moved flt1 (createWAVHeader (Z.of_nat (length (body r))))
                   ++ moved flt2 (body r))%list in
    (remote_write_ok evs = true ->
     remote w' !! remote_path w (filename_in w) = Some stored) /\
    (copy_ok evs = true -> ~ same_file w (tempFilePath_in w) (destPath_in w) ->
     file_at w' (destPath_in w) = Some stored).
Proof. exact (write_errors_wp r w). Qed.

Lemma write_errors_are_dropped_witness :
  write_failed (events (handlePostAudio four_samples) disk_full) = true
  /\ status (handlePostAudio four_samples disk_full).1 = StatusOK
  /\ file_at (handlePostAudio four_samples disk_full).2 (destPath_in disk_full) = Some [].
Proof.
  assert (H : write_failed (events (handlePostAudio four_samples) disk_full) = true)
    by (vm_compute; reflexivity).
  destruct (write_errors_are_dropped four_samples disk_full H) as (_ & Hs & _).
  split; [exact H|]. split.
  - apply Hs. right. vm_compute. reflexivity.
  - vm_compute. reflexivity.
Defined.

(* ===================================================================== *)
(** ** The remote path and the missing client *)
(* ===================================================================== *)

Lemma uploadToAGFS_path_wp (filePath fileName : string) (w : World) :
  wp (uploadToAGFS filePath fileName)
     (fun _ w' =>
        writes_to (remote_path w fileName) (drop (length (trace w)) (trace w'))) w.
Proof.
  unfold remote_path, writes_to.
  wp_run; wp_leaf;
    repeat (constructor; [cbn [call]; intros p d [=]; subst|]);
    try (now constructor).
  all: repeat case_decide; congruence.
Qed.

Lemma handler_remote_path_wp (r : Request) (w : World) :
  wp (handlePostAudio r)
     (fun _ w' =>
        writes_to (remote_path w (filename_in w))
                  (drop (length (trace w)) (trace w'))) w.
Proof.
  unfold remote_path, writes_to, filename_in.
  wp_run; wp_leaf;
    repeat (constructor; [cbn [call]; intros p d [=]; subst|]);
    try (now constructor).
  all: repeat case_decide; congruence.
Qed.

(** C5. Every remote write that [uploadToAGFS] makes for a file name goes to
    [join(agfsUploadPath, fileName)] when the upload path is not empty and
    to [fileName] itself when it is; for the handler the file name is the
    one generated for the request. *)
Theorem remote_path_of_upload (filePath fileName : string) (r : Request) (w : World) :
  writes_to (if decide (agfsUploadPath w = ""%string) then fileName
             else filepath_Join (agfsUploadPath w) fileName)
            (events (uploadToAGFS filePath fileName) w)
  /\ writes_to (if decide (agfsUploadPath w = ""%string) then filename_in w
                else filepath_Join (agfsUploadPath w) (filename_in w))
               (events (handlePostAudio r) w).
Proof.
  split.
  - exact (uploadToAGFS_path_wp filePath fileName w).
  - exact (handler_remote_path_wp r w).
Qed.

(** The two cases on a run: with the upload path of [with_remote], and with
    none. *)
Lemma remote_path_of_upload_witness :
  calls (remote_writes (events (handlePostAudio four_samples) with_remote))
  = [AgfsWrite "/s3fs/aws/recordings/30_10_2026_12_00_07.wav"
       (createWAVHeader 4 ++ [1; 2; 3; 4])]
  /\ calls (remote_writes (events (handlePostAudio four_samples)
                             (set_agfsUploadPath "" with_remote)))
     = [AgfsWrite "30_10_2026_12_00_07.wav" (createWAVHeader 4 ++ [1; 2; 3; 4])]
  /\ writes_to "/s3fs/aws/recordings/30_10_2026_12_00_07.wav"
               (events (handlePostAudio four_samples) with_remote).
Proof.
  split; [vm_compute; reflexivity|]. split; [vm_compute; reflexivity|].
  exact (proj2 (remote_path_of_upload "" "" four_samples with_remote)).
Defined.

Lemma uploadToAGFS_nil_client (filePath fileName : string) (w : World) :
  agfsClient w = None ->
  uploadToAGFS filePath fileName w = (Some not_initialized, w).
Proof. intros H. unfold uploadToAGFS, bind, read. now rewrite H. Qed.

Lemma uploadToAGFS_configured_wp (filePath fileName : string) (w : World) :
  agfsClient w <> None ->
  wp (uploadToAGFS filePath fileName) (fun err _ => err <> Some not_initialized) w.
Proof.
  intros Hc. destruct (agfsClient w) eqn:E; [|congruence].
  wp_run; unfold not_initialized; cbv [String.append]; congruence.
Qed.

Lemma handler_never_logs_nil_client_wp (r : Request) (w : World) :
  wp (handlePostAudio r)
     (fun _ w' =>
        Forall (fun line => line <> "Failed to upload to AGFS: " +:+ not_initialized)
               (drop (length (logs w)) (logs w'))) w.
Proof.
  wp_run; wp_trace;
    repeat (constructor; [unfold not_initialized; cbv [String.append]; congruence|]);
    constructor.
Qed.

(** C9. Without a client [uploadToAGFS] returns the error "AGFS client not
    initialized" and does nothing else (it makes no call and leaves the
    state as it is); with a client its error, if any, is another one; and
    the handler, which calls it only with a client, never meets that error:
    it never logs the line that would report it. *)
Theorem upload_without_client (filePath fileName : string) (r : Request) (w : World) :
  (agfsClient w = None ->
   uploadToAGFS filePath fileName w = (Some "AGFS client not initialized"%string, w))
  /\ (agfsClient w <> None ->
      (uploadToAGFS filePath fileName w).1 <> Some "AGFS client not initialized"%string)
  /\ Forall (fun line =>
               line <> "Failed to upload to AGFS: AGFS client not initialized"%string)
            (logged (handlePostAudio r) w).
Proof.
  split; [exact (uploadToAGFS_nil_client filePath fileName w)|].
  split; [exact (uploadToAGFS_configured_wp filePath fileName w)|].
  exact (handler_never_logs_nil_client_wp r w).
Qed.

Lemma upload_without_client_witness :
  agfsClient local_only = None
  /\ uploadToAGFS "/tmp/a.wav" "a.wav" local_only
     = (Some "AGFS client not initialized"%string, local_only)
  /\ agfsClient with_remote <> None
  /\ (uploadToAGFS "/tmp/a.wav" "a.wav" with_remote).1
     <> Some "AGFS client not initialized"%string.
Proof.
  assert (H : agfsClient local_only = None) by reflexivity.
  assert (H' : agfsClient with_remote <> None) by discriminate.
  destruct (upload_without_client "/tmp/a.wav" "a.wav" four_samples local_only)
    as (Hnil & _ & _).
  destruct (upload_without_client "/tmp/a.wav" "a.wav" four_samples with_remote)
    as (_ & Hcfg & _).
  split; [exact H|]. split; [exact (Hnil H)|]. split; [exact H'|exact (Hcfg H')].
Defined.

(* ===================================================================== *)
(** ** The storage directory *)
(* ===================================================================== *)

Lemma handler_storage_dir_wp (r : Request) (w : World) :
  wp (handlePostAudio r)
     (fun _ w' =>
        env w' = env w /\
        let evs := drop (length (trace w)) (trace w') in
        trace w' = (trace w ++ evs)%list /\
        resolves_dir_itself (configured_dir (env w)) evs) w.
Proof.
  unfold resolves_dir_itself, configured_dir.
  wp_run; (split; [reflexivity|]); wp_leaf; (split; [reflexivity|]).
  all: first [ left; reflexivity | right; split; [reflexivity|]; auto 10 ].
Qed.

Lemma handler_storage_dir (r : Request) (w : World) :
  env (handlePostAudio r w).2 = env w /\
  trace (handlePostAudio r w).2 = (trace w ++ events (handlePostAudio r) w)%list /\
  resolves_dir_itself (configured_dir (env w)) (events (handlePostAudio r) w).
Proof. exact (handler_storage_dir_wp r w). Qed.

Lemma mkdirs_app (a b : list Event) : mkdirs (a ++ b) = (mkdirs a ++ mkdirs b)%list.
Proof. apply omap_app. Qed.

Lemma events_extend {A} (m : M A) (w : World) (evs : list Event) :
  trace (m w).2 = (trace w ++ evs)%list -> events m w = evs.
Proof. intros H. unfold events. rewrite H. apply drop_app_length. Qed.

Lemma serve_storage_dir (requests : list Request) (w : World) :
  env (serve requests w).2 = env w /\
  exists evs, trace (serve requests w).2 = (trace w ++ evs)%list /\
              Forall (fun d => d = configured_dir (env w)) (mkdirs evs).
Proof.
  revert w. induction requests as [|r rs IH]; intros w.
  - split; [reflexivity|]. exists []. split; [now rewrite app_nil_r|constructor].
  - cbn [serve]. unfold bind.
    destruct (handler_storage_dir r w) as (He & Ht & Hd).
    destruct (handlePostAudio r w) as [resp w1]. cbn [fst snd] in *.
    destruct (IH w1) as (He' & evs' & Ht' & Hd').
    destruct (serve rs w1) as [resps w2]. cbn [fst snd ret] in *.
    split; [congruence|].
    exists (events (handlePostAudio r) w ++ evs')%list. split.
    + rewrite Ht', Ht. now rewrite app_assoc.
    + rewrite mkdirs_app. apply Forall_app. split.
      * destruct Hd as [-> | [-> _]]; repeat constructor.
      * now rewrite <- He.
Qed.

Lemma main_reads_server_addr_wp (flags : Flags) (w : World) :
  wp (main flags)
     (fun _ w' => env w' = env w /\
                  calls (drop (length (trace w)) (trace w')) = [OsGetenv "SERVER_ADDR"]) w.
Proof.
  unfold main. wp_step. wp_step.
  repeat case_decide; wp_run; wp_leaf; auto.
Qed.

(** C8, as the code has it. Startup does not resolve the storage directory:
    the one variable [main] looks up is [SERVER_ADDR].  The handler resolves
    it, in every request that comes to the local save, from
    [AUDIO_STORAGE_DIR] in the environment of that moment (or
    [./audio_files]).  Neither [main] nor the handler changes the
    environment, so the requests a process serves one after the other all
    save under the directory the environment had at startup. *)
Theorem storage_dir_resolved_per_request (flags : Flags) (requests : list Request)
    (r : Request) (w0 w : World) :
  calls (events (main flags) w0) = [OsGetenv "SERVER_ADDR"]
  /\ resolves_dir_itself (configured_dir (env w)) (events (handlePostAudio r) w)
  /\ env (handlePostAudio r w).2 = env w
  /\ Forall (fun d => d = configured_dir (env w0))
            (mkdirs (events (serve requests) (main flags w0).2)).
Proof.
  destruct (main_reads_server_addr_wp flags w0) as [He Hc].
  destruct (handler_storage_dir r w) as (He' & _ & Hd).
  split; [exact Hc|]. split; [exact Hd|]. split; [exact He'|].
  destruct (serve_storage_dir requests (main flags w0).2) as (_ & evs & Ht & Hf).
  rewrite (events_extend _ _ _ Ht). now rewrite <- He.
Qed.

(** C8 fails as stated: the lookup of [AUDIO_STORAGE_DIR] is among the calls
    of a request and not among those of startup, and a request handled after
    the variable changed saves under the new directory, not under the one of
    startup. *)
Lemma storage_dir_not_fixed_at_startup :
  In (OsGetenv "AUDIO_STORAGE_DIR")
     (calls (events (handlePostAudio four_samples) (main no_flags started_in_a).2))
  /\ ~ In (OsGetenv "AUDIO_STORAGE_DIR") (calls (events (main no_flags) started_in_a))
  /\ configured_dir (env started_in_a) = "/srv/a"%string
  /\ agfsClient moved_to_b = agfsClient (main no_flags started_in_a).2
  /\ mkdirs (events (handlePostAudio four_samples) moved_to_b) = ["/srv/b"%string].
Proof.
  split; [vm_compute; tauto|].
  split; [vm_compute; intros [H|[]]; discriminate H|].
  repeat split; vm_compute; reflexivity.
Qed.

(* ===================================================================== *)
(** ** The sample rate of the request *)
(* ===================================================================== *)

Lemma handler_lines_wp (r : Request) (w : World) :
  wp (handlePostAudio r)
     (fun _ w' =>
        let evs := drop (length (trace w)) (trace w') in
        (file_writes evs = [] \/
         file_writes evs =
         [FileWrite (tempFilePath_in w) (createWAVHeader (Z.of_nat (length (body r))));
          FileWrite (tempFilePath_in w) (body r)]) /\
        In ("Requested sample rate: " +:+ query_Get (query r) "sample_rate")
           (drop (length (logs w)) (logs w'))) w.
Proof.
  unfold tempFilePath_in, filename_in.
  wp_run; wp_leaf; (split; [auto|auto 10]).
Qed.

(** C7. Two requests with the same body, whatever their [sample_rate] (and
    the rest of their query), get the same answer from the same state, make
    the same calls with the same data, and leave states that differ in the
    log at most.  The header written is the one for the length of the body,
    with one channel, 16000 samples per second and 16 bits per sample in it
    for every length; the [sample_rate] of the request is in a line of the
    log. *)
Theorem sample_rate_only_logged (r1 r2 : Request) (w : World) :
  body r1 = body r2 ->
  (handlePostAudio r1 w).1 = (handlePostAudio r2 w).1
  /\ events (handlePostAudio r1) w = events (handlePostAudio r2) w
  /\ same_but_logs (handlePostAudio r1 w).2 (handlePostAudio r2 w).2
  /\ (file_writes (events (handlePostAudio r1) w) = [] \/
      file_writes (events (handlePostAudio r1) w) =
      [FileWrite (tempFilePath_in w) (createWAVHeader (Z.of_nat (length (body r1))));
       FileWrite (tempFilePath_in w) (body r1)])
  /\ In ("Requested sample rate: " +:+ query_Get (query r1) "sample_rate")%string
        (logged (handlePostAudio r1) w)
  /\ forall L, slice 22 24 (createWAVHeader L) = le 2 1
               /\ slice 24 28 (createWAVHeader L) = le 4 16000
               /\ slice 34 36 (createWAVHeader L) = le 2 16.
Proof.
  intros Hb.
  destruct (rel_handlePostAudio r1 r2 Hb w w (same_but_logs_refl w)) as [Hr Hw].
  split; [exact Hr|]. split.
  { pose proof Hw as (_ & _ & _ & _ & _ & _ & Ht & _). unfold events. now rewrite Ht. }
  split; [exact Hw|].
  destruct (handler_lines_wp r1 w) as [Hf Hl].
  split; [exact Hf|]. split; [exact Hl|].
  intros L. rewrite createWAVHeader_is_layout. repeat split.
Qed.

Lemma sample_rate_only_logged_witness :
  body four_samples = body four_samples_48k
  /\ (handlePostAudio four_samples local_only).1
     = (handlePostAudio four_samples_48k local_only).1
  /\ events (handlePostAudio four_samples) local_only
     = events (handlePostAudio four_samples_48k) local_only.
Proof.
  assert (H : body four_samples = body four_samples_48k) by reflexivity.
  destruct (sample_rate_only_logged four_samples four_samples_48k local_only H)
    as (Hr & He & _).
  split; [exact H|]. split; [exact Hr|exact He].
Defined.

(* ===================================================================== *)
(** ** More on the header *)
(* ===================================================================== *)

Lemma le_4_eq_mod (a b : Z) : le 4 a = le 4 b <-> a mod 2 ^ 32 = b mod 2 ^ 32.
Proof.
  split; intros H.
  - apply (f_equal le_value) in H. now rewrite !le_value_le in H.
  - rewrite <- (le_mod 4 a), <- (le_mod 4 b).
    change (256 ^ Z.of_nat 4) with (2 ^ 32). now rewrite H.
Qed.

(** X1. The header tells the length of the payload up to a multiple of
    2^32 and no further: two lengths give the same header exactly when they
    have the same low 32 bits.  So the headers of two payloads shorter than
    4 GiB differ when the lengths do, and a payload of [L + 2^32] bytes gets
    the header of one of [L] bytes. *)
Theorem createWAVHeader_same (L1 L2 : Z) :
  createWAVHeader L1 = createWAVHeader L2 <-> L1 mod 2 ^ 32 = L2 mod 2 ^ 32.
Proof.
  rewrite !createWAVHeader_is_layout. split; intros H.
  - apply (f_equal (slice 40 44)) in H.
    change (slice 40 44 (layout (36 + L1) L1)) with (le 4 L1) in H.
    change (slice 40 44 (layout (36 + L2) L2)) with (le 4 L2) in H.
    now apply le_4_eq_mod.
  - unfold layout.
    assert (H1 : le 4 L1 = le 4 L2) by now apply le_4_eq_mod.
    assert (H2 : le 4 (36 + L1) = le 4 (36 + L2)).
    { apply le_4_eq_mod. rewrite (Z.add_mod 36 L1), (Z.add_mod 36 L2) by lia.
      now rewrite H. }
    now rewrite H1, H2.
Qed.

(* ===================================================================== *)
(** ** Startup *)
(* ===================================================================== *)

Lemma main_wp (flags : Flags) (w : World) :
  wp (main flags)
     (fun a w' =>
        a = server_addr (addr flags) (env w) /\
        (agfsClient w', agfsUploadPath w') =
        (if decide (agfsAPIURL flags = ""%string)
         then (agfsClient w, agfsUploadPath w)
         else (Some (NewClient (agfsAPIURL flags)), agfsPath flags)) /\
        files w' = files w /\ dirs w' = dirs w /\ remote w' = remote w /\
        env w' = env w /\ clock w' = clock w) w.
Proof.
  unfold main, server_addr. wp_step. wp_step.
  repeat case_decide; wp_run; try congruence; repeat split; congruence.
Qed.

(** X2. The address served is the [-addr] flag when it is given, else the
    variable [SERVER_ADDR] when it is set and not empty, else [:8080]. *)
Theorem main_server_addr (flags : Flags) (w : World) :
  (main flags w).1 =
  if decide (addr flags = ""%string)
  then (if decide (getenv (env w) "SERVER_ADDR" = ""%string) then ":8080"%string
        else getenv (env w) "SERVER_ADDR")
  else addr flags.
Proof.
  destruct (main_wp flags w) as [-> _]. unfold server_addr.
  repeat case_decide; congruence.
Qed.

(** X3. Startup sets the two package variables together or not at all: with
    an [-agfs-api-url] the client is one for that URL and the upload path is
    the [-agfs-upload-path] flag; without it both stay as they were, so an
    upload path given alone is dropped.  Startup touches neither the disk,
    nor the remote store, nor the environment. *)
Theorem main_configures_remote (flags : Flags) (w : World) :
  let w' := (main flags w).2 in
  (agfsAPIURL flags <> ""%string ->
   agfsClient w' = Some (NewClient (agfsAPIURL flags)) /\
   agfsUploadPath w' = agfsPath flags)
  /\ (agfsAPIURL flags = ""%string ->
      agfsClient w' = agfsClient w /\ agfsUploadPath w' = agfsUploadPath w)
  /\ files w' = files w /\ dirs w' = dirs w /\ remote w' = remote w
  /\ env w' = env w.
Proof.
  destruct (main_wp flags w) as (_ & Hc & Hf & Hd & Hr & He & _).
  split; [|split; [|auto]]; intros H; case_decide; try congruence;
    injection Hc as -> ->; auto.
Qed.

Lemma main_configures_remote_witness :
  agfsAPIURL all_flags <> ""%string
  /\ agfsClient (main all_flags local_only).2 = Some (NewClient "http://agfs:8080")
  /\ agfsUploadPath (main all_flags local_only).2 = "/rec"%string
  /\ agfsAPIURL path_only = ""%string
  /\ agfsClient (main path_only local_only).2 = None
  /\ agfsUploadPath (main path_only local_only).2 = ""%string.
Proof.
  assert (H1 : agfsAPIURL all_flags <> ""%string) by discriminate.
  assert (H2 : agfsAPIURL path_only = ""%string) by reflexivity.
  destruct (main_configures_remote all_flags local_only) as (Ha & _ & _).
  destruct (main_configures_remote path_only local_only) as (_ & Hb & _).
  destruct (Ha H1) as [Ha1 Ha2]. destruct (Hb H2) as [Hb1 Hb2].
  repeat (split; [assumption|]). assumption.
Defined.

(* ===================================================================== *)
(** ** More on the handler *)
(* ===================================================================== *)

Lemma insert_keeps (m : gmap string (list Z)) (k p : string) (v : list Z) :
  is_Some (m !! p) -> is_Some (<[k := v]> m !! p).
Proof. intros H. apply lookup_insert_is_Some'. now right. Qed.

Lemma handler_keeps_wp (r : Request) (w : World) :
  wp (handlePostAudio r)
     (fun resp w' =>
        same_process w w' /\ disk_grows w w' /\
        In resp (answers (filename_in w))) w.
Proof.
  unfold same_process, disk_grows, answers, filename_in, http_Error.
  wp_run; (split; [repeat split; congruence|]); (split; [split|]);
    try set_solver; try (intros p Hp; repeat apply insert_keeps; exact Hp).
  all: cbn [In]; auto 10.
Qed.

(** X4. The handler gives one of five answers, whatever happens: 200 with
    the name of the file, 400 for a body that cannot be read, and 500 with
    one of three fixed texts.  No answer carries the error that was met. *)
Theorem handler_answers (r : Request) (w : World) :
  In (handlePostAudio r w).1
     [ {| status := 200;
          text := "Audio bytes received and saved as " +:+ filename_of (clock w) |};
       {| status := 400; text := "Failed to read request body" +:+ newline |};
       {| status := 500; text := "Failed to create temp file" +:+ newline |};
       {| status := 500; text := "Failed to save file" +:+ newline |};
       {| status := 500; text := "Failed to save file to local storage" +:+ newline |} ].
Proof. exact (proj2 (proj2 (handler_keeps_wp r w))). Qed.

(** X5. A request changes nothing of the process it runs in: the
    environment, the clock, the client and the upload path are after it what
    they were before.  And it takes nothing from the disk: the directories
    that were there are there, and so is every file that was (its content
    may have been replaced). *)
Theorem handler_keeps_process (r : Request) (w : World) :
  let w' := (handlePostAudio r w).2 in
  env w' = env w /\ clock w' = clock w /\
  agfsClient w' = agfsClient w /\ agfsUploadPath w' = agfsUploadPath w /\
  dirs w ⊆ dirs w' /\
  (forall p, is_Some (files w !! p) -> is_Some (files w' !! p)).
Proof.
  destruct (handler_keeps_wp r w) as ((He & Hc & _ & Ha & Hu) & (Hd & Hf) & _).
  repeat split; assumption.
Qed.

Lemma handler_keeps_process_witness :
  is_Some (files one_file !! "store/a.wav"%string)
  /\ is_Some (files (handlePostAudio four_samples one_file).2 !! "store/a.wav"%string).
Proof.
  assert (H : is_Some (files one_file !! "store/a.wav"%string))
    by (vm_compute; eauto).
  split; [exact H|].
  exact (proj2 (proj2 (proj2 (proj2 (proj2
           (handler_keeps_process four_samples one_file))))) _ H).
Defined.

Lemma handler_early_wp (r : Request) (w : World) :
  wp (handlePostAudio r)
     (fun resp w' =>
        let evs := drop (length (trace w)) (trace w') in
        let lines := drop (length (logs w)) (logs w') in
        (first_failed is_read_all evs = true ->
         resp = {| status := 400; text := "Failed to read request body" +:+ newline |} /\
         calls evs = [IoReadAll] /\
         files w' = files w /\ dirs w' = dirs w /\ remote w' = remote w) /\
        (first_failed is_create evs = true ->
         resp = {| status := 500; text := "Failed to create temp file" +:+ newline |} /\
         calls evs = [IoReadAll; TimeNow; OsTempDir; OsCreate (tempFilePath_in w);
                      BodyClose] /\
         files w' = files w /\ dirs w' = dirs w /\ remote w' = remote w /\
         exists e, first_failure evs = Some (CreateStep, e) /\
                   last lines = Some ("Failed to create temp file: " +:+ e))) w.
Proof.
  unfold tempFilePath_in, filename_in.
  wp_run; wp_leaf; (split; [|]); try (intros; discriminate);
    intros _; repeat split; eauto.
Qed.

(** X6. When the body of the request cannot be read, the answer is 400
    "Failed to read request body" and that read is all the request did: no
    file, directory or remote object was created or changed. *)
Theorem unreadable_body_is_400 (r : Request) (w : World) :
  let evs := events (handlePostAudio r) w in
  let w' := (handlePostAudio r w).2 in
  first_failed is_read_all evs = true ->
  (handlePostAudio r w).1
  = {| status := 400; text := "Failed to read request body" +:+ newline |} /\
  calls evs = [IoReadAll] /\
  files w' = files w /\ dirs w' = dirs w /\ remote w' = remote w.
Proof. exact (proj1 (handler_early_wp r w)). Qed.

Lemma unreadable_body_is_400_witness :
  first_failed is_read_all (events (handlePostAudio four_samples) broken_body) = true
  /\ status (handlePostAudio four_samples broken_body).1 = 400
  /\ files (handlePostAudio four_samples broken_body).2 = ∅.
Proof.
  assert (H : first_failed is_read_all
                (events (handlePostAudio four_samples) broken_body) = true)
    by (vm_compute; reflexivity).
  destruct (unreadable_body_is_400 four_samples broken_body H) as (Hr & _ & Hf & _).
  split; [exact H|]. split; [now rewrite Hr|exact Hf].
Defined.

(** X7. When the temporary file cannot be created, the answer is 500
    "Failed to create temp file", the error is in the last line logged, and
    the request stops there: it has asked for the time and the directory of
    temporary files, it makes no attempt to store anything, and no file,
    directory or remote object was created or changed. *)
Theorem temp_file_failure_is_500 (r : Request) (w : World) :
  let evs := events (handlePostAudio r) w in
  let w' := (handlePostAudio r w).2 in
  first_failed is_create evs = true ->
  (handlePostAudio r w).1
  = {| status := 500; text := "Failed to create temp file" +:+ newline |} /\
  calls evs = [IoReadAll; TimeNow; OsTempDir; OsCreate (tempFilePath_in w); BodyClose] /\
  files w' = files w /\ dirs w' = dirs w /\ remote w' = remote w /\
  exists e, first_failure evs = Some (CreateStep, e) /\
            last (logged (handlePostAudio r) w)
            = Some ("Failed to create temp file: " +:+ e)%string.
Proof. exact (proj2 (handler_early_wp r w)). Qed.

Lemma temp_file_failure_is_500_witness :
  first_failed is_create (events (handlePostAudio four_samples) tmp_read_only) = true
  /\ status (handlePostAudio four_samples tmp_read_only).1 = 500
  /\ remote (handlePostAudio four_samples tmp_read_only).2 = ∅.
Proof.
  assert (H : first_failed is_create
                (events (handlePostAudio four_samples) tmp_read_only) = true)
    by (vm_compute; reflexivity).
  destruct (temp_file_failure_is_500 four_samples tmp_read_only H)
    as (Hr & _ & _ & _ & Hrem & _).
  split; [exact H|]. split; [now rewrite Hr|exact Hrem].
Defined.

Lemma handler_read_back_wp (r : Request) (w : World) :
  wp (handlePostAudio r)
     (fun resp w' =>
        let evs := drop (length (trace w)) (trace w') in
        first_failed is_read_file evs = true ->
        remote_writes evs = [] /\ remote w' = remote w /\
        mkdirs evs = [configured_dir (env w)] /\
        (first_failure evs = None ->
         status resp = StatusOK /\ copy_ok evs = true /\
         is_Some (file_at w' (destPath_in w)))) w.
Proof.
  unfold file_at, destPath_in, configured_dir, filename_in.
  wp_run; wp_leaf; try (intros; discriminate).
  all: intros _; repeat split; auto; try discriminate.
  all: rewrite lookup_insert_eq; eauto.
Qed.

(** X8. The fallback also covers the step before the remote write: when the
    temporary file cannot be read back for the upload, no remote write is
    made at all, the remote store is as it was, and the local save is
    attempted once, in the storage directory; if no step of it fails the
    answer is 200. *)
Theorem read_back_failure_falls_back (r : Request) (w : World) :
  let evs := events (handlePostAudio r) w in
  let w' := (handlePostAudio r w).2 in
  first_failed is_read_file evs = true ->
  remote_writes evs = [] /\ remote w' = remote w /\
  mkdirs evs = [configured_dir (env w)] /\
  (first_failure evs = None ->
   status (handlePostAudio r w).1 = StatusOK /\ copy_ok evs = true /\
   is_Some (file_at w' (destPath_in w))).
Proof. exact (handler_read_back_wp r w). Qed.

Lemma read_back_failure_falls_back_witness :
  first_failed is_read_file (events (handlePostAudio four_samples) unreadable_tmp) = true
  /\ remote (handlePostAudio four_samples unreadable_tmp).2 = ∅
  /\ status (handlePostAudio four_samples unreadable_tmp).1 = StatusOK.
Proof.
  assert (H : first_failed is_read_file
                (events (handlePostAudio four_samples) unreadable_tmp) = true)
    by (vm_compute; reflexivity).
  destruct (read_back_failure_falls_back four_samples unreadable_tmp H)
    as (_ & Hrem & _ & Hok).
  split; [exact H|]. split; [exact Hrem|].
  apply Hok. vm_compute. reflexivity.
Defined.

Lemma handler_no_client_wp (r : Request) (w : World) :
  agfsClient w = None ->
  wp (handlePostAudio r)
     (fun resp w' =>
        let evs := drop (length (trace w)) (trace w') in
        forallb (fun e => negb (is_remote_write (call e) || is_read_file (call e))) evs
        = true /\
        remote w' = remote w) w.
Proof. intros Hc. wp_run; wp_leaf; auto. Qed.

(** X9. Without a client the handler makes no remote write and does not
    read the temporary file back, whatever else happens, and the remote
    store is as it was. *)
Theorem no_client_no_remote_call (r : Request) (w : World) :
  agfsClient w = None ->
  forallb (fun e => negb (is_remote_write (call e) || is_read_file (call e)))
          (events (handlePostAudio r) w) = true
  /\ remote (handlePostAudio r w).2 = remote w.
Proof. intros Hc. exact (handler_no_client_wp r w Hc). Qed.

Lemma no_client_no_remote_call_witness :
  agfsClient read_only = None
  /\ remote (handlePostAudio four_samples read_only).2 = remote read_only.
Proof.
  assert (H : agfsClient read_only = None) by reflexivity.
  split; [exact H|]. exact (proj2 (no_client_no_remote_call four_samples read_only H)).
Defined.

(* ===================================================================== *)
(** ** What is stored when nothing fails *)
(* ===================================================================== *)

Lemma all_ok_write (c : Call) (flt : option Fault) (b : bool) :
  negb (failed {| call := c; outcome := reason <$> flt |}) && b = true -> flt = None.
Proof. destruct flt; [discriminate|reflexivity]. Qed.

Lemma moved_None (data : list Z) : moved None data = data.
Proof. reflexivity. Qed.

(** Two paths differ, in either order. *)
Ltac ne := first [assumption | apply not_eq_sym; assumption].

Lemma handler_stores_wp (r : Request) (w : World) :
  wp (handlePostAudio r)
     (fun resp w' =>
        let evs := drop (length (trace w)) (trace w') in
        let tmp := tempFilePath_in w in
        let dest := destPath_in w in
        all_ok evs = true ->
        resp = {| status := 200;
                  text := "Audio bytes received and saved as " +:+ filename_in w |} /\
        (agfsClient w = None ->
         dirs w' = {[configured_dir (env w)]} ∪ dirs w /\
         remote w' = remote w /\
         (~ same_file w tmp dest ->
          file_at w' dest = Some (createWAVHeader (Z.of_nat (length (body r))) ++ body r)%list /\
          file_at w' tmp = Some (createWAVHeader (Z.of_nat (length (body r))) ++ body r)%list) /\
         (same_file w tmp dest -> file_at w' dest = Some []) /\
         (forall p, ~ same_file w p tmp -> ~ same_file w p dest ->
                    file_at w' p = file_at w p)) /\
        (agfsClient w <> None ->
         dirs w' = dirs w /\
         remote w' = <[remote_path w (filename_in w) := (createWAVHeader (Z.of_nat (length (body r))) ++ body r)%list]> (remote w) /\
         file_at w' tmp = Some (createWAVHeader (Z.of_nat (length (body r))) ++ body r)%list /\
         (forall p, ~ same_file w p tmp -> file_at w' p = file_at w p))) w.
Proof.
  unfold same_file, file_at, destPath_in, tempFilePath_in, configured_dir, filename_in,
    remote_path, all_ok, handlePostAudio.
  wp_run; wp_trace; intros Hok;
    cbn [forallb fmap option_fmap option_map failed outcome negb andb] in Hok;
    try discriminate Hok.
  all: pose proof (all_ok_write _ _ _ Hok) as ->;
    cbn [fmap option_fmap option_map failed outcome negb andb] in Hok;
    pose proof (all_ok_write _ _ _ Hok) as ->;
    cbn [fmap option_fmap option_map failed outcome negb andb] in Hok;
    try discriminate Hok.
  all: rewrite ?moved_None in Hfile; rewrite ?moved_None.
  all: split; [reflexivity|].
  - (* the remote write succeeded *)
    rewrite lookup_insert_eq in Hfile. apply (inj Some) in Hfile. subst data.
    split; [intros [=]|]. intros _. split; [reflexivity|]. split.
    + repeat case_decide; first [reflexivity | contradiction].
    + split; [apply lookup_insert_eq|].
      intros p Hp. now rewrite !lookup_insert_ne by ne.
  - (* no client: the local save *)
    split; [|intros H'; now destruct H']. intros _.
    split; [reflexivity|]. split; [reflexivity|].
    split; [|split].
    + intros Hne. split.
      * rewrite !lookup_insert_eq.
        rewrite lookup_insert_ne by ne. now rewrite lookup_insert_eq.
      * rewrite !lookup_insert_ne by ne. now rewrite !lookup_insert_eq.
    + intros Heq. rewrite <- Heq. now rewrite !lookup_insert_eq.
    + intros p Hp Hp'. now rewrite !lookup_insert_ne by ne.
Qed.

Lemma handler_stores (r : Request) (w : World) :
  let resp := (handlePostAudio r w).1 in
  let w' := (handlePostAudio r w).2 in
  let tmp := tempFilePath_in w in
  let dest := destPath_in w in
  all_ok (events (handlePostAudio r) w) = true ->
  resp = {| status := 200;
            text := "Audio bytes received and saved as " +:+ filename_in w |} /\
  (agfsClient w = None ->
   dirs w' = {[configured_dir (env w)]} ∪ dirs w /\
   remote w' = remote w /\
   (~ same_file w tmp dest ->
    file_at w' dest = Some (createWAVHeader (Z.of_nat (length (body r))) ++ body r)%list /\
    file_at w' tmp = Some (createWAVHeader (Z.of_nat (length (body r))) ++ body r)%list) /\
   (same_file w tmp dest -> file_at w' dest = Some []) /\
   (forall p, ~ same_file w p tmp -> ~ same_file w p dest ->
              file_at w' p = file_at w p)) /\
  (agfsClient w <> None ->
   dirs w' = dirs w /\
   remote w' = <[remote_path w (filename_in w) := (createWAVHeader (Z.of_nat (length (body r))) ++ body r)%list]> (remote w) /\
   file_at w' tmp = Some (createWAVHeader (Z.of_nat (length (body r))) ++ body r)%list /\
   (forall p, ~ same_file w p tmp -> file_at w' p = file_at w p)).
Proof. exact (handler_stores_wp r w). Qed.

(** X10. Without a client, when no call of the request fails and the
    temporary file and the destination are two files (the two paths do not
    name one file), the answer is 200 with the name of the file, the storage
    directory exists, and what is found at the destination is the header for
    the length of the body followed by the body, as it is at the path of the
    temporary file, which is left behind; what is found at a path that names
    another file is as before, and the remote store is as it was.  A reader
    of the stored file gets the body back when it is a whole number of
    frames and shorter than 4 GiB less 36 bytes. *)
Theorem local_save_stores_wav (r : Request) (w : World) :
  let evs := events (handlePostAudio r) w in
  let w' := (handlePostAudio r w).2 in
  agfsClient w = None ->
  all_ok evs = true ->
  ~ same_file w (tempFilePath_in w) (destPath_in w) ->
  (handlePostAudio r w).1
  = {| status := 200;
       text := "Audio bytes received and saved as " +:+ filename_in w |} /\
  configured_dir (env w) ∈ dirs w' /\
  file_at w' (destPath_in w)
  = Some (createWAVHeader (Z.of_nat (length (body r))) ++ body r) /\
  file_at w' (tempFilePath_in w)
  = Some (createWAVHeader (Z.of_nat (length (body r))) ++ body r) /\
  (forall p, ~ same_file w p (tempFilePath_in w) -> ~ same_file w p (destPath_in w) ->
             file_at w' p = file_at w p) /\
  remote w' = remote w /\
  (36 + Z.of_nat (length (body r)) < 2 ^ 32 ->
   Nat.even (length (body r)) = true ->
   audio <$> (file_at w' (destPath_in w) ≫= parseWAV) = Some (body r)).
Proof.
  intros evs w' Hc Hok Hne.
  destruct (handler_stores r w Hok) as (Hr & Hloc & _).
  destruct (Hloc Hc) as (Hd & Hrem & Hfile & _ & Hother).
  destruct (Hfile Hne) as [Hdest Htmp].
  subst w'.
  split; [exact Hr|].
  split; [rewrite Hd; apply elem_of_union; left; now apply elem_of_singleton|].
  split; [exact Hdest|]. split; [exact Htmp|]. split; [exact Hother|].
  split; [exact Hrem|].
  intros Hfit Heven. rewrite Hdest. cbn [mbind option_bind].
  rewrite (parseWAV_layout _ Hfit), (even_whole _ Heven), firstn_all. reflexivity.
Qed.

Lemma local_save_stores_wav_witness :
  agfsClient local_only = None
  /\ all_ok (events (handlePostAudio four_samples) local_only) = true
  /\ ~ same_file local_only (tempFilePath_in local_only) (destPath_in local_only)
  /\ file_at (handlePostAudio four_samples local_only).2
       "audio_files/30_10_2026_12_00_07.wav"
     = Some (createWAVHeader 4 ++ [1; 2; 3; 4])
  /\ audio <$> (file_at (handlePostAudio four_samples local_only).2
                  "audio_files/30_10_2026_12_00_07.wav" ≫= parseWAV)
     = Some [1; 2; 3; 4].
Proof.
  assert (H1 : agfsClient local_only = None) by reflexivity.
  assert (H2 : all_ok (events (handlePostAudio four_samples) local_only) = true)
    by (vm_compute; reflexivity).
  assert (H3 : ~ same_file local_only (tempFilePath_in local_only)
                 (destPath_in local_only))
    by (vm_compute; discriminate).
  destruct (local_save_stores_wav four_samples local_only H1 H2 H3)
    as (_ & _ & Hdest & _ & _ & _ & Hread).
  split; [exact H1|]. split; [exact H2|]. split; [exact H3|]. split; [exact Hdest|].
  apply Hread; [vm_compute; reflexivity|reflexivity].
Defined.

(** X11. When the path of the temporary file and the destination name one
    file (the storage directory is the directory of temporary files, under
    the same name or another), so that the local save copies the temporary
    file onto itself, a request without a client in which no call fails is
    answered with 200 and leaves an empty file: creating the destination
    empties the source before the copy reads it. *)
Theorem local_save_onto_itself (r : Request) (w : World) :
  let evs := events (handlePostAudio r) w in
  let w' := (handlePostAudio r w).2 in
  agfsClient w = None ->
  all_ok evs = true ->
  same_file w (tempFilePath_in w) (destPath_in w) ->
  status (handlePostAudio r w).1 = 200 /\
  file_at w' (destPath_in w) = Some [].
Proof.
  intros evs w' Hc Hok Heq.
  destruct (handler_stores r w Hok) as (Hr & Hloc & _).
  destruct (Hloc Hc) as (_ & _ & _ & Hsame & _).
  split; [now rewrite Hr|exact (Hsame Heq)].
Qed.

Lemma local_save_onto_itself_witness :
  (agfsClient local_in_tmp = None
   /\ all_ok (events (handlePostAudio four_samples) local_in_tmp) = true
   /\ same_file local_in_tmp (tempFilePath_in local_in_tmp) (destPath_in local_in_tmp)
   /\ status (handlePostAudio four_samples local_in_tmp).1 = 200
   /\ file_at (handlePostAudio four_samples local_in_tmp).2
        "/tmp/30_10_2026_12_00_07.wav" = Some [])
  /\ (tempFilePath_in tmp_is_storage = "/work/audio_files/30_10_2026_12_00_07.wav"%string
      /\ destPath_in tmp_is_storage = "audio_files/30_10_2026_12_00_07.wav"%string
      /\ same_file tmp_is_storage (tempFilePath_in tmp_is_storage)
           (destPath_in tmp_is_storage)
      /\ status (handlePostAudio four_samples tmp_is_storage).1 = 200
      /\ file_at (handlePostAudio four_samples tmp_is_storage).2
           "audio_files/30_10_2026_12_00_07.wav" = Some []).
Proof.
  assert (H1 : agfsClient local_in_tmp = None) by reflexivity.
  assert (H2 : all_ok (events (handlePostAudio four_samples) local_in_tmp) = true)
    by (vm_compute; reflexivity).
  assert (H3 : same_file local_in_tmp (tempFilePath_in local_in_tmp)
                 (destPath_in local_in_tmp))
    by (vm_compute; reflexivity).
  assert (K1 : agfsClient tmp_is_storage = None) by reflexivity.
  assert (K2 : all_ok (events (handlePostAudio four_samples) tmp_is_storage) = true)
    by (vm_compute; reflexivity).
  assert (K3 : same_file tmp_is_storage (tempFilePath_in tmp_is_storage)
                 (destPath_in tmp_is_storage))
    by (vm_compute; reflexivity).
  destruct (local_save_onto_itself four_samples local_in_tmp H1 H2 H3) as [Hs Hf].
  destruct (local_save_onto_itself four_samples tmp_is_storage K1 K2 K3) as [Ks Kf].
  split.
  - split; [exact H1|]. split; [exact H2|]. split; [exact H3|].
    split; [exact Hs|exact Hf].
  - split; [vm_compute; reflexivity|]. split; [vm_compute; reflexivity|].
    split; [exact K3|]. split; [exact Ks|exact Kf].
Defined.

(** X12. With a client, when no call of the request fails, the answer is
    200 with the name of the file and the remote store holds, at the remote
    path of that name, the header for the length of the body followed by the
    body; nothing else changed in the remote store, no directory was made,
    and on disk only the temporary file changed, which holds the same
    bytes: what is found at a path that names another file is as before. *)
Theorem remote_upload_stores_wav (r : Request) (w : World) :
  let evs := events (handlePostAudio r) w in
  let w' := (handlePostAudio r w).2 in
  agfsClient w <> None ->
  all_ok evs = true ->
  (handlePostAudio r w).1
  = {| status := 200;
       text := "Audio bytes received and saved as " +:+ filename_in w |} /\
  remote w' !! remote_path w (filename_in w)
  = Some (createWAVHeader (Z.of_nat (length (body r))) ++ body r) /\
  (forall p, p <> remote_path w (filename_in w) -> remote w' !! p = remote w !! p) /\
  file_at w' (tempFilePath_in w)
  = Some (createWAVHeader (Z.of_nat (length (body r))) ++ body r) /\
  (forall p, ~ same_file w p (tempFilePath_in w) -> file_at w' p = file_at w p) /\
  dirs w' = dirs w.
Proof.
  intros evs w' Hc Hok.
  destruct (handler_stores r w Hok) as (Hr & _ & Hrem).
  destruct (Hrem Hc) as (Hd & Hremote & Htmp & Hother).
  subst w'.
  split; [exact Hr|]. rewrite Hremote.
  split; [apply lookup_insert_eq|].
  split; [intros p Hp; now rewrite lookup_insert_ne by congruence|].
  split; [exact Htmp|]. split; [exact Hother|exact Hd].
Qed.

Lemma remote_upload_stores_wav_witness :
  agfsClient with_remote <> None
  /\ all_ok (events (handlePostAudio four_samples) with_remote) = true
  /\ remote (handlePostAudio four_samples with_remote).2
       !! "/s3fs/aws/recordings/30_10_2026_12_00_07.wav"%string
     = Some (createWAVHeader 4 ++ [1; 2; 3; 4]).
Proof.
  assert (H1 : agfsClient with_remote <> None) by discriminate.
  assert (H2 : all_ok (events (handlePostAudio four_samples) with_remote) = true)
    by (vm_compute; reflexivity).
  destruct (remote_upload_stores_wav four_samples with_remote H1 H2) as (_ & Hrem & _).
  split; [exact H1|]. split; [exact H2|]. exact Hrem.
Defined.
(* ===================================================================== *)
(** ** The two ways to store, on their own *)
(* ===================================================================== *)

(** The copy, keeping what a failed copy moved: a prefix of the source. *)
Lemma wp_io_Copy_prefix dst src Q w :
  (forall flt : option Fault,
     Q (length (moved flt (content (Name src) w)), reason <$> flt)
       (record (IoCopy (Name dst) (Name src)) (reason <$> flt)
          (append_file (Name dst) (moved flt (content (Name src) w)) w))) ->
  wp (io_Copy dst src) Q w.
Proof. intros H. apply H. Qed.

Ltac wp_step_copy :=
  lazymatch goal with
  | |- wp (io_Copy _ _) _ _ =>
    apply wp_io_Copy_prefix; (let f := fresh "flt" in intros [f|]); wp_red;
    cbn [fmap option_fmap option_map moved]
  | _ => wp_step
  end.

Lemma saveFileLocally_wp (storageDir fileName tempFilePath : string) (w : World) :
  wp (saveFileLocally storageDir fileName tempFilePath)
     (fun err w' =>
        let evs := drop (length (trace w)) (trace w') in
        let dest := filepath_Join storageDir fileName in
        (err = None <-> all_ok evs = true) /\
        remote w' = remote w /\
        (forall p, ~ same_file w p dest -> file_at w' p = file_at w p) /\
        (all_ok evs = true ->
         storageDir ∈ dirs w' /\
         (~ same_file w tempFilePath dest ->
          file_at w' dest = file_at w tempFilePath) /\
         (same_file w tempFilePath dest -> file_at w' dest = Some [])) /\
        (forall e,
           In {| call := IoCopy dest tempFilePath; outcome := Some e |} evs ->
           err = Some ("failed to copy file: " +:+ e) /\
           storageDir ∈ dirs w' /\
           exists n, ~ same_file w tempFilePath dest ->
                     file_at w' dest = take n <$> file_at w tempFilePath)) w.
Proof.
  unfold same_file, file_at, all_ok, saveFileLocally.
  repeat wp_step_copy; wp_trace;
    cbn [forallb failed outcome negb andb].
  all: split; [split; intros [=]; reflexivity|].
  all: split; [reflexivity|].
  all: split; [first [reflexivity | intros p Hp; now rewrite !lookup_insert_ne by ne]|].
  all: split; [intros Hok; try discriminate Hok | intros e' He; cbn [In] in He;
                repeat (destruct He as [He|He]); try discriminate He; try contradiction].
  - (* the copy failed *)
    injection He as <-.
    split; [reflexivity|]. split; [apply elem_of_union; left; now apply elem_of_singleton|].
    exists (transferred flt). intros Hne.
    rewrite !lookup_insert_eq, lookup_insert_ne by ne. now rewrite Hfile.
  - (* nothing failed *)
    split; [apply elem_of_union; left; now apply elem_of_singleton|].
    split.
    + intros Hne. rewrite !lookup_insert_eq, lookup_insert_ne by ne.
      now rewrite Hfile.
    + intros Heq. rewrite <- Heq. now rewrite !lookup_insert_eq.
Qed.

Lemma saveFileLocally_run (storageDir fileName tempFilePath : string) (w : World) :
  let err := (saveFileLocally storageDir fileName tempFilePath w).1 in
  let w' := (saveFileLocally storageDir fileName tempFilePath w).2 in
  let evs := events (saveFileLocally storageDir fileName tempFilePath) w in
  let dest := filepath_Join storageDir fileName in
  (err = None <-> all_ok evs = true) /\
  remote w' = remote w /\
  (forall p, ~ same_file w p dest -> file_at w' p = file_at w p) /\
  (all_ok evs = true ->
   storageDir ∈ dirs w' /\
   (~ same_file w tempFilePath dest -> file_at w' dest = file_at w tempFilePath) /\
   (same_file w tempFilePath dest -> file_at w' dest = Some [])) /\
  (forall e,
     In {| call := IoCopy dest tempFilePath; outcome := Some e |} evs ->
     err = Some ("failed to copy file: " +:+ e) /\
     storageDir ∈ dirs w' /\
     exists n, ~ same_file w tempFilePath dest ->
               file_at w' dest = take n <$> file_at w tempFilePath).
Proof. exact (saveFileLocally_wp storageDir fileName tempFilePath w). Qed.

(** X13. [saveFileLocally] returns nil exactly when none of its calls
    failed.  Then the storage directory exists, and what is found at the
    destination, the file name joined to the directory, is what the source
    held, whatever was there before, when source and destination are two
    files; when the two paths name one file, that file is left empty.  What
    is found at a path that names another file than the destination never
    changes, and the remote store is never touched. *)
Theorem saveFileLocally_copies (storageDir fileName tempFilePath : string) (w : World) :
  let err := (saveFileLocally storageDir fileName tempFilePath w).1 in
  let w' := (saveFileLocally storageDir fileName tempFilePath w).2 in
  let dest := filepath_Join storageDir fileName in
  (err = None <->
   all_ok (events (saveFileLocally storageDir fileName tempFilePath) w) = true) /\
  remote w' = remote w /\
  (forall p, ~ same_file w p dest -> file_at w' p = file_at w p) /\
  (err = None ->
   storageDir ∈ dirs w' /\
   (~ same_file w tempFilePath dest -> file_at w' dest = file_at w tempFilePath) /\
   (same_file w tempFilePath dest -> file_at w' dest = Some [])).
Proof.
  intros err w' dest.
  destruct (saveFileLocally_run storageDir fileName tempFilePath w)
    as (Hiff & Hrem & Hother & Hok & _).
  split; [exact Hiff|]. split; [exact Hrem|]. split; [exact Hother|].
  intros Herr. apply Hiff in Herr. exact (Hok Herr).
Qed.

Lemma saveFileLocally_copies_witness :
  ((saveFileLocally "store" "a.wav" "/tmp/a.wav" one_file).1 = None
   /\ ~ same_file one_file "/tmp/a.wav" (filepath_Join "store" "a.wav")
   /\ file_at one_file "store/a.wav" = Some [7; 7; 7; 7; 7]
   /\ file_at (saveFileLocally "store" "a.wav" "/tmp/a.wav" one_file).2
        (filepath_Join "store" "a.wav")
      = file_at one_file "/tmp/a.wav")
  /\ ((saveFileLocally "store" "a.wav" "./store/a.wav" one_file_cwd).1 = None
      /\ same_file one_file_cwd "./store/a.wav" (filepath_Join "store" "a.wav")
      /\ file_at one_file_cwd "./store/a.wav" = Some [7; 7; 7; 7; 7]
      /\ file_at (saveFileLocally "store" "a.wav" "./store/a.wav" one_file_cwd).2
           (filepath_Join "store" "a.wav")
         = Some []).
Proof.
  assert (H1 : (saveFileLocally "store" "a.wav" "/tmp/a.wav" one_file).1 = None)
    by (vm_compute; reflexivity).
  assert (H2 : ~ same_file one_file "/tmp/a.wav" (filepath_Join "store" "a.wav"))
    by (vm_compute; discriminate).
  assert (K1 : (saveFileLocally "store" "a.wav" "./store/a.wav" one_file_cwd).1 = None)
    by (vm_compute; reflexivity).
  assert (K2 : same_file one_file_cwd "./store/a.wav" (filepath_Join "store" "a.wav"))
    by (vm_compute; reflexivity).
  destruct (saveFileLocally_copies "store" "a.wav" "/tmp/a.wav" one_file)
    as (_ & _ & _ & H).
  destruct (H H1) as (_ & Hf & _).
  destruct (saveFileLocally_copies "store" "a.wav" "./store/a.wav" one_file_cwd)
    as (_ & _ & _ & K).
  destruct (K K1) as (_ & _ & Kf).
  split.
  - split; [exact H1|]. split; [exact H2|].
    split; [vm_compute; reflexivity|exact (Hf H2)].
  - split; [exact K1|]. split; [exact K2|].
    split; [vm_compute; reflexivity|exact (Kf K2)].
Defined.

(** X14. [saveFileLocally] does not clean up.  When the copy is what
    failed, the error is that of the copy, the storage directory has been
    made, and the destination is left holding a prefix of the source: what
    it held before is gone. *)
Theorem saveFileLocally_failed_copy
        (storageDir fileName tempFilePath : string) (w : World) (e : error) :
  let err := (saveFileLocally storageDir fileName tempFilePath w).1 in
  let w' := (saveFileLocally storageDir fileName tempFilePath w).2 in
  let dest := filepath_Join storageDir fileName in
  In {| call := IoCopy dest tempFilePath; outcome := Some e |}
     (events (saveFileLocally storageDir fileName tempFilePath) w) ->
  ~ same_file w tempFilePath dest ->
  err = Some ("failed to copy file: " +:+ e) /\
  storageDir ∈ dirs w' /\
  exists n, file_at w' dest = take n <$> file_at w tempFilePath.
Proof.
  intros err w' dest Hin Hne.
  destruct (saveFileLocally_run storageDir fileName tempFilePath w)
    as (_ & _ & _ & _ & Hcopy).
  destruct (Hcopy e Hin) as (He & Hd & n & Hn).
  split; [exact He|]. split; [exact Hd|]. exists n. exact (Hn Hne).
Qed.

Lemma saveFileLocally_failed_copy_witness :
  In {| call := IoCopy (filepath_Join "store" "a.wav") "/tmp/a.wav";
        outcome := Some "no space left on device"%string |}
     (events (saveFileLocally "store" "a.wav" "/tmp/a.wav") copy_breaks)
  /\ ~ same_file copy_breaks "/tmp/a.wav" (filepath_Join "store" "a.wav")
  /\ file_at copy_breaks "store/a.wav" = Some [7; 7; 7; 7; 7]
  /\ file_at (saveFileLocally "store" "a.wav" "/tmp/a.wav" copy_breaks).2
       "store/a.wav" = Some [10; 20]
  /\ exists n, file_at (saveFileLocally "store" "a.wav" "/tmp/a.wav" copy_breaks).2
                 (filepath_Join "store" "a.wav")
               = take n <$> file_at copy_breaks "/tmp/a.wav".
Proof.
  assert (H1 : In {| call := IoCopy (filepath_Join "store" "a.wav") "/tmp/a.wav";
                      outcome := Some "no space left on device"%string |}
                  (events (saveFileLocally "store" "a.wav" "/tmp/a.wav") copy_breaks))
    by (vm_compute; tauto).
  assert (H2 : ~ same_file copy_breaks "/tmp/a.wav" (filepath_Join "store" "a.wav"))
    by (vm_compute; discriminate).
  destruct (saveFileLocally_failed_copy "store" "a.wav" "/tmp/a.wav" copy_breaks _ H1 H2)
    as (_ & _ & Hn).
  split; [exact H1|]. split; [exact H2|].
  split; [vm_compute; reflexivity|]. split; [vm_compute; reflexivity|exact Hn].
Defined.

Lemma uploadToAGFS_wp (filePath fileName : string) (w : World) :
  wp (uploadToAGFS filePath fileName)
     (fun err w' =>
        let evs := drop (length (trace w)) (trace w') in
        files w' = files w /\ dirs w' = dirs w /\
        (err = None <-> agfsClient w <> None /\ all_ok evs = true) /\
        (err = None ->
         exists data, file_at w filePath = Some data /\
                      remote w' = <[remote_path w fileName := data]> (remote w)) /\
        (remote_writes evs = [] -> remote w' = remote w)) w.
Proof.
  unfold file_at, all_ok, remote_path, remote_writes, uploadToAGFS.
  wp_run; wp_trace; cbn [forallb failed outcome negb andb List.filter call is_remote_write].
  all: split; [reflexivity|]. all: split; [reflexivity|].
  all: split;
    [split; [intros Herr; first [discriminate Herr | split; [congruence|reflexivity]]
            |intros [Hc Hok]; first [discriminate Hok | reflexivity | now destruct Hc]]|].
  all: split; [intros Herr; try discriminate Herr
              | intros Hw; first [reflexivity | discriminate Hw]].
  exists data. split; [exact Hfile|].
  repeat case_decide; first [reflexivity | contradiction].
Qed.

(** X15. [uploadToAGFS] never changes the local disk.  It returns nil
    exactly when there is a client and no call failed; then the remote store
    holds what is found at the file path, at the remote path of the name,
    and is otherwise unchanged.  When it makes no remote write (there is no
    client, or the file cannot be read) the remote store is as before; what
    a remote write that fails leaves of the store is not said. *)
Theorem uploadToAGFS_effect (filePath fileName : string) (w : World) :
  let err := (uploadToAGFS filePath fileName w).1 in
  let w' := (uploadToAGFS filePath fileName w).2 in
  let evs := events (uploadToAGFS filePath fileName) w in
  files w' = files w /\ dirs w' = dirs w /\
  (err = None <-> agfsClient w <> None /\ all_ok evs = true) /\
  (err = None ->
   exists data, file_at w filePath = Some data /\
                remote w' = <[remote_path w fileName := data]> (remote w)) /\
  (remote_writes evs = [] -> remote w' = remote w).
Proof. exact (uploadToAGFS_wp filePath fileName w). Qed.
(* ===================================================================== *)
(** ** The two revisions *)
(* ===================================================================== *)

Lemma bind_no_client {A B} (m : M A) (k1 k2 : A -> M B) (w : World) :
  (forall w0, agfsClient (m w0).2 = agfsClient w0) ->
  (forall a w', agfsClient w' = None -> k1 a w' = k2 a w') ->
  agfsClient w = None -> bind m k1 w = bind m k2 w.
Proof.
  unfold bind. intros Hm Hk Hw. specialize (Hm w).
  destruct (m w) as [a w']. apply Hk. cbn [snd] in Hm. congruence.
Qed.

Lemma defer_same {A} (d : M unit) (m1 m2 : M A) (w : World) :
  m1 w = m2 w -> defer d m1 w = defer d m2 w.
Proof. unfold defer. now intros ->. Qed.

Lemma read_bind {A B} (f : World -> A) (k : A -> M B) (w : World) :
  bind (read f) k w = k (f w) w.
Proof. reflexivity. Qed.

Lemma log_Printf_client line w : agfsClient (log_Printf line w).2 = agfsClient w.
Proof. reflexivity. Qed.

Lemma io_ReadAll_client body w : agfsClient (io_ReadAll body w).2 = agfsClient w.
Proof. unfold io_ReadAll. now destruct (pending w). Qed.

Lemma time_Now_client w : agfsClient (time_Now w).2 = agfsClient w.
Proof. reflexivity. Qed.

Lemma os_TempDir_client w : agfsClient (os_TempDir w).2 = agfsClient w.
Proof. reflexivity. Qed.

Lemma os_Create_client path w : agfsClient (os_Create path w).2 = agfsClient w.
Proof. unfold os_Create. now destruct (pending w). Qed.

Lemma File_Write_client f data w : agfsClient (File_Write f data w).2 = agfsClient w.
Proof. reflexivity. Qed.

(** X16. Without a client the handler is the handler of the earlier
    revision: the same answer and the same state after it, files, calls and
    log lines included, for every request and whatever fails. *)
Theorem handler_without_client_is_rev1 (r : Request) (w : World) :
  agfsClient w = None ->
  handlePostAudio r w = Rev1.handlePostAudio r w.
Proof.
  unfold handlePostAudio, Rev1.handlePostAudio.
  intros Hw.
  apply bind_no_client; [apply log_Printf_client| |exact Hw]. clear w Hw; intros _ w Hw.
  apply bind_no_client; [apply log_Printf_client| |exact Hw]. clear w Hw; intros _ w Hw.
  apply bind_no_client; [apply io_ReadAll_client| |exact Hw]. clear w Hw; intros rd w Hw.
  destruct rd as [body|err]; [|reflexivity].
  apply defer_same.
  apply bind_no_client; [apply time_Now_client| |exact Hw]. clear w Hw; intros t w Hw.
  apply bind_no_client; [apply os_TempDir_client| |exact Hw]. clear w Hw; intros tmp w Hw.
  apply bind_no_client; [apply os_Create_client| |exact Hw]. clear w Hw; intros rc w Hw.
  destruct rc as [tempFile|err]; [|reflexivity].
  apply defer_same.
  apply bind_no_client; [apply File_Write_client| |exact Hw]. clear w Hw; intros _ w Hw.
  apply bind_no_client; [apply File_Write_client| |exact Hw]. clear w Hw; intros _ w Hw.
  rewrite read_bind, Hw. reflexivity.
Qed.

Lemma handler_without_client_is_rev1_witness :
  agfsClient local_only = None
  /\ handlePostAudio four_samples local_only = Rev1.handlePostAudio four_samples local_only.
Proof.
  assert (H : agfsClient local_only = None) by reflexivity.
  split; [exact H|]. exact (handler_without_client_is_rev1 four_samples local_only H).
Defined.

(** X17. The address served is found in the same way in the two revisions:
    the flag, else [SERVER_ADDR], else [:8080].  The flags of the remote
    store have no part in it. *)
Theorem main_addr_as_rev1 (flags : Flags) (w : World) :
  (main flags w).1 = (Rev1.main (addr flags) w).1 /\
  (Rev1.main (addr flags) w).1 = server_addr (addr flags) (env w).
Proof.
  unfold main, Rev1.main, server_addr, bind, os_Getenv, log_Printf, ret, assign.
  cbn [fst snd]. repeat case_decide; cbn [fst snd env record set_trace];
    repeat case_decide; first [reflexivity | contradiction | (split; congruence) | idtac].
Qed.
(* ===================================================================== *)
(** ** File names *)
(* ===================================================================== *)

Lemma below_forallb (P : nat -> bool) (N : nat) :
  forallb P (seq 0 N) = true -> forall n, (n < N)%nat -> P n = true.
Proof.
  intros H n Hn. rewrite forallb_forall in H. apply H. apply in_seq. lia.
Qed.

Lemma fmt_2d_length (n : nat) : (n < 100)%nat -> String.length (fmt_0d 2 n) = 2%nat.
Proof.
  intros Hn. apply Nat.eqb_eq.
  apply (below_forallb (fun n => String.length (fmt_0d 2 n) =? 2)%nat 100); [|exact Hn].
  vm_compute. reflexivity.
Qed.

Lemma fmt_2d_number (n : nat) : (n < 100)%nat -> number_of (fmt_0d 2 n) 0 = n.
Proof.
  intros Hn. apply Nat.eqb_eq.
  apply (below_forallb (fun n => number_of (fmt_0d 2 n) 0 =? n)%nat 100); [|exact Hn].
  vm_compute. reflexivity.
Qed.

Lemma fmt_4d_length (n : nat) :
  (n < 100 * 100)%nat -> String.length (fmt_0d 4 n) = 4%nat.
Proof.
  intros Hn. apply Nat.eqb_eq.
  apply (below_forallb (fun n => String.length (fmt_0d 4 n) =? 4)%nat (100 * 100));
    [|exact Hn].
  vm_compute. reflexivity.
Qed.

Lemma fmt_4d_number (n : nat) : (n < 100 * 100)%nat -> number_of (fmt_0d 4 n) 0 = n.
Proof.
  intros Hn. apply Nat.eqb_eq.
  apply (below_forallb (fun n => number_of (fmt_0d 4 n) 0 =? n)%nat (100 * 100));
    [|exact Hn].
  vm_compute. reflexivity.
Qed.

Lemma string_length_app (a b : string) :
  String.length (a +:+ b) = (String.length a + String.length b)%nat.
Proof. induction a as [|c a IH]; cbn; [reflexivity|]. now rewrite <- IH. Qed.

Lemma string_app_inj (a a' b b' : string) :
  String.length a = String.length a' -> a +:+ b = a' +:+ b' -> a = a' /\ b = b'.
Proof.
  revert a'. induction a as [|c a IH]; intros [|c' a'] Hlen Heq;
    try discriminate Hlen.
  - now split.
  - cbn in Heq. injection Heq as -> Heq. injection Hlen as Hlen.
    destruct (IH a' Hlen Heq) as [-> ->]. now split.
Qed.

(** X18. For a clock reading with day, month, hour, minute and second
    below 100 and a year below 10000 the file name has 23 characters:
    every field is padded to its width. *)
Theorem filename_of_length (t : Time) :
  calendar t -> String.length (filename_of t) = 23%nat.
Proof.
  intros (Hd & Hm & Hy & Hh & Hmi & Hs). unfold filename_of.
  rewrite !string_length_app.
  rewrite !fmt_2d_length, fmt_4d_length by assumption. reflexivity.
Qed.

Lemma filename_of_length_witness :
  calendar noon /\ String.length (filename_of noon) = 23%nat.
Proof.
  assert (H : calendar noon) by (vm_compute; repeat split; lia).
  split; [exact H|exact (filename_of_length noon H)].
Defined.

(** X19. Two such clock readings with the same file name are the same
    reading: requests share a name, and so a file, only within the same
    second. *)
Theorem filename_of_inj (t1 t2 : Time) :
  calendar t1 -> calendar t2 -> filename_of t1 = filename_of t2 -> t1 = t2.
Proof.
  intros (Hd1 & Hm1 & Hy1 & Hh1 & Hmi1 & Hs1) (Hd2 & Hm2 & Hy2 & Hh2 & Hmi2 & Hs2).
  unfold filename_of. intros H.
  apply string_app_inj in H as [Hd H]; [|now rewrite !fmt_2d_length].
  apply (string_app_inj "_" "_") in H as [_ H]; [|reflexivity].
  apply string_app_inj in H as [Hm H]; [|now rewrite !fmt_2d_length].
  apply (string_app_inj "_" "_") in H as [_ H]; [|reflexivity].
  apply string_app_inj in H as [Hy H]; [|now rewrite !fmt_4d_length].
  apply (string_app_inj "_" "_") in H as [_ H]; [|reflexivity].
  apply string_app_inj in H as [Hh H]; [|now rewrite !fmt_2d_length].
  apply (string_app_inj "_" "_") in H as [_ H]; [|reflexivity].
  apply string_app_inj in H as [Hmi H]; [|now rewrite !fmt_2d_length].
  apply (string_app_inj "_" "_") in H as [_ H]; [|reflexivity].
  apply string_app_inj in H as [Hs _]; [|now rewrite !fmt_2d_length].
  apply (f_equal (fun s => number_of s 0)) in Hd, Hm, Hy, Hh, Hmi, Hs.
  rewrite !fmt_2d_number in Hd, Hm, Hh, Hmi, Hs by assumption.
  rewrite !fmt_4d_number in Hy by assumption.
  destruct t1, t2; cbn in *; congruence.
Qed.

Lemma filename_of_inj_witness :
  calendar noon /\ filename_of noon = filename_of noon /\ noon = noon.
Proof.
  assert (H : calendar noon) by (vm_compute; repeat split; lia).
  assert (E : filename_of noon = filename_of noon) by reflexivity.
  split; [exact H|]. split; [exact E|]. exact (filename_of_inj noon noon H H E).
Defined.
(* ===================================================================== *)
(** ** What the status says *)
(* ===================================================================== *)

Lemma handler_status_wp (r : Request) (w : World) :
  wp (handlePostAudio r)
     (fun resp w' =>
        let evs := drop (length (trace w)) (trace w') in
        (status resp = 200 <-> remote_write_ok evs = true \/ copy_ok evs = true) /\
        (status resp = 400 <-> first_failed is_read_all evs = true) /\
        (status resp = 200 ->
         is_Some (remote w' !! remote_path w (filename_in w)) \/
         is_Some (file_at w' (destPath_in w)))) w.
Proof.
  unfold file_at, remote_path, destPath_in, configured_dir, filename_in, remote_write_ok, copy_ok,
    first_failed, http_Error.
  wp_run; wp_trace;
    cbn [existsb List.filter call outcome failed is_remote_write is_copy is_read_all
         negb andb orb status StatusOK StatusBadRequest StatusInternalServerError].
  all: split; [split; [intros H; first [discriminate H | auto]
                      |intros [H|H]; first [discriminate H | reflexivity]]|].
  all: split; [split; intros H; first [discriminate H | reflexivity]|].
  all: intros H; try discriminate H.
  all: first [ right; rewrite lookup_insert_eq; eauto
             | left; repeat case_decide; first [contradiction | rewrite lookup_insert_eq; eauto] ].
Qed.

(** X20. The status tells whether the file was stored.  The answer is 200
    exactly when a remote write succeeded or the local copy did, and then
    there is an object at the remote path of the name or a file of that name
    in the storage directory.  It is 400 exactly when the body could not be
    read. *)
Theorem status_tells_storage (r : Request) (w : World) :
  let resp := (handlePostAudio r w).1 in
  let w' := (handlePostAudio r w).2 in
  let evs := events (handlePostAudio r) w in
  (status resp = 200 <-> remote_write_ok evs = true \/ copy_ok evs = true) /\
  (status resp = 400 <-> first_failed is_read_all evs = true) /\
  (status resp = 200 ->
   is_Some (remote w' !! remote_path w (filename_in w)) \/
   is_Some (file_at w' (destPath_in w))).
Proof. exact (handler_status_wp r w). Qed.
